(** * weather-app: the response model, the weather client and the report
      formatter of [src/weather_app], embedded in Rocq.

    Python values are embedded as a small universe [value]; a [str] is the
    [string] of its UTF-8 bytes; a [float] is an IEEE-754 binary64 number
    ([spec_float] at precision 53); a [dict] is an association list in
    insertion order; exceptions are data and every call that may raise
    returns a [result]. *)

From Stdlib Require Import ZArith List String Ascii Bool Lia.
From Stdlib Require Import DecimalString SpecFloat.
Import ListNotations.

Set Warnings "-register-all".

Local Open Scope string_scope.
Local Open Scope Z_scope.

(** ** Python strings *)

Module Str.

Definition code (c : ascii) : N := N_of_ascii c.

(** [sep in s] for a one-character [sep]. *)
Fixpoint contains (sep : ascii) (s : string) : bool :=
  match s with
  | EmptyString => false
  | String c rest => Ascii.eqb c sep || contains sep rest
  end.

(** [s.split(sep)] for a one-character [sep]: never the empty list. *)
Fixpoint split (sep : ascii) (s : string) : list string :=
  match s with
  | EmptyString => [EmptyString]
  | String c rest =>
      if Ascii.eqb c sep then EmptyString :: split sep rest
      else match split sep rest with
           | seg :: segs => String c seg :: segs
           | [] => [String c EmptyString]
           end
  end.

(** The code points for which [str.isspace] holds, by their UTF-8
    encodings: U+0009..U+000D, U+001C..U+0020 in one byte, U+0085 and
    U+00A0 in two, U+1680, U+2000..U+200A, U+2028, U+2029, U+202F, U+205F
    and U+3000 in three. *)
Definition space1 (c : ascii) : bool :=
  let n := code c in
  ((9 <=? n) && (n <=? 13) || (28 <=? n) && (n <=? 32))%N.

Definition space2 (c1 c2 : ascii) : bool :=
  ((code c1 =? 194) && ((code c2 =? 133) || (code c2 =? 160)))%N.

Definition space3 (c1 c2 c3 : ascii) : bool :=
  let '(a, b, c) := (code c1, code c2, code c3) in
  ((a =? 225) && (b =? 154) && (c =? 128)
   || (a =? 226) && (b =? 128)
      && ((128 <=? c) && (c <=? 138) || (c =? 168) || (c =? 169) || (c =? 175))
   || (a =? 226) && (b =? 129) && (c =? 159)
   || (a =? 227) && (b =? 128) && (c =? 128))%N.

Fixpoint lstrip (s : string) : string :=
  match s with
  | EmptyString => s
  | String c1 r1 =>
      if space1 c1 then lstrip r1
      else match r1 with
           | EmptyString => s
           | String c2 r2 =>
               if space2 c1 c2 then lstrip r2
               else match r2 with
                    | EmptyString => s
                    | String c3 r3 =>
                        if space3 c1 c2 c3 then lstrip r3 else s
                    end
           end
  end.

Fixpoint rev_onto (s acc : string) : string :=
  match s with
  | EmptyString => acc
  | String c rest => rev_onto rest (String c acc)
  end.

Definition rev (s : string) : string := rev_onto s EmptyString.

(** [lstrip] on the reversed string: the bytes of a code point arrive
    last byte first. *)
Fixpoint lstrip_rev (s : string) : string :=
  match s with
  | EmptyString => s
  | String c1 r1 =>
      if space1 c1 then lstrip_rev r1
      else match r1 with
           | EmptyString => s
           | String c2 r2 =>
               if space2 c2 c1 then lstrip_rev r2
               else match r2 with
                    | EmptyString => s
                    | String c3 r3 =>
                        if space3 c3 c2 c1 then lstrip_rev r3 else s
                    end
           end
  end.

Definition rstrip (s : string) : string := rev (lstrip_rev (rev s)).

(** [s.strip()] *)
Definition strip (s : string) : string := rstrip (lstrip s).

(** [str(n)] for an [int]. *)
Definition of_Z (n : Z) : string := NilZero.string_of_int (Z.to_int n).

Definition is_digit (c : ascii) : bool := ((48 <=? code c) && (code c <=? 57))%N.

Definition digit_val (c : ascii) : Z := Z.of_N (code c) - 48.

(** The digits of an integer literal as [int(s)] reads them: a single
    underscore may separate two digits. [prev] says whether the previous
    character was a digit. *)
Fixpoint digits (s : string) (prev : bool) (acc : Z) : option Z :=
  match s with
  | EmptyString => if prev then Some acc else None
  | String c rest =>
      if is_digit c then digits rest true (10 * acc + digit_val c)
      else if (code c =? 95)%N && prev then
        match rest with
        | EmptyString => None
        | String d _ => if is_digit d then digits rest false acc else None
        end
      else None
  end.

(** [int(s)] for a [str] in base 10: surrounding whitespace, an optional
    sign, ASCII digits. [None] stands for [ValueError]. *)
Definition to_Z (s : string) : option Z :=
  match strip s with
  | String c rest =>
      if (code c =? 45)%N then option_map Z.opp (digits rest false 0)
      else if (code c =? 43)%N then digits rest false 0
      else digits (String c rest) false 0
  | EmptyString => None
  end.

End Str.

(** ** Python values *)

Definition float := spec_float.

Inductive value : Type :=
| VNone
| VBool (b : bool)
| VInt (n : Z)
| VFloat (x : float)
| VStr (s : string)
| VList (xs : list value)
| VDict (kvs : list (string * value))
| VObj (cls : string) (attrs : list (string * value)).

(** [d.get(k)] / [d[k]] / [getattr(o, k)] on the association list. *)
Fixpoint lookup (k : string) (kvs : list (string * value)) : option value :=
  match kvs with
  | [] => None
  | (k', v) :: rest => if String.eqb k k' then Some v else lookup k rest
  end.

Module Float.

Definition prec : Z := 53.
Definition emax : Z := 1024.

Definition is_zero (x : float) : bool :=
  match x with S754_zero _ => true | _ => false end.

(** [x == n] for a float [x] and an int [n]: Python compares the exact
    values. *)
Definition eq_Z (x : float) (n : Z) : bool :=
  match x with
  | S754_zero _ => n =? 0
  | S754_finite s m e =>
      let sm := if s then Z.neg m else Z.pos m in
      match e with
      | Zneg k => sm =? n * 2 ^ Z.pos k
      | _ => sm * 2 ^ e =? n
      end
  | _ => false
  end.

(** [a / b] for ints [a] and [b > 0]: the binary64 number nearest to the
    exact quotient, an infinity standing for [OverflowError]. *)
Definition div_Z (a b : Z) : float :=
  match a with
  | Z0 => S754_zero false
  | Zpos p => SFdiv prec emax (S754_finite false p 0) (S754_finite false (Z.to_pos b) 0)
  | Zneg p => SFdiv prec emax (S754_finite true p 0) (S754_finite false (Z.to_pos b) 0)
  end.

(** The integer nearest to [n / d], ties to even, for [0 <= n], [0 < d]. *)
Definition round_half_even (n d : Z) : Z :=
  let q := n / d in
  match 2 * (n mod d) ?= d with
  | Lt => q
  | Gt => q + 1
  | Eq => if Z.even q then q else q + 1
  end.

(** [format(x, ".1f")]: the exact binary value rounded to one decimal
    place, ties to even. *)
Definition format_1f (x : float) : string :=
  match x with
  | S754_zero s => (if s then "-" else "") ++ "0.0"
  | S754_infinity s => if s then "-inf" else "inf"
  | S754_nan => "nan"
  | S754_finite s m e =>
      let tenths :=
        match e with
        | Zneg k => round_half_even (10 * Z.pos m) (2 ^ Z.pos k)
        | _ => 10 * Z.pos m * 2 ^ e
        end in
      (if s then "-" else "") ++ Str.of_Z (tenths / 10) ++ "." ++ Str.of_Z (tenths mod 10)
  end.

End Float.

(** [bool(v)] *)
Definition truthy (v : value) : bool :=
  match v with
  | VNone => false
  | VBool b => b
  | VInt n => negb (n =? 0)
  | VFloat x => negb (Float.is_zero x)
  | VStr s => negb (String.eqb s "")
  | VList xs => match xs with [] => false | _ => true end
  | VDict kvs => match kvs with [] => false | _ => true end
  | VObj _ _ => true
  end.

(** [v == n] for an int literal [n]. *)
Definition eq_int (v : value) (n : Z) : bool :=
  match v with
  | VInt m => m =? n
  | VBool b => (if b then 1 else 0) =? n
  | VFloat x => Float.eq_Z x n
  | _ => false
  end.

(** [type(v).__name__] *)
Definition type_name (v : value) : string :=
  match v with
  | VNone => "NoneType"
  | VBool _ => "bool"
  | VInt _ => "int"
  | VFloat _ => "float"
  | VStr _ => "str"
  | VList _ => "list"
  | VDict _ => "dict"
  | VObj cls _ => cls
  end.

(** ** Exceptions and results *)

(** The exception classes that can reach the command line: builtins, the
    validation error of pydantic, the transport errors of requests and the
    classes of [exceptions.py]. *)
Inductive pyclass : Type :=
| Exception
| TypeError | ValueError | AttributeError | KeyError | IndexError
| OverflowError | OSError
| ValidationError
| RequestException | HTTPError | ConnectionError | Timeout | JSONDecodeError
| WeatherAppError | APIError | InvalidAPIKeyError | LocationNotFoundError
| RateLimitExceededError | ConfigurationError.

Definition pyclass_eqb (c d : pyclass) : bool :=
  match c, d with
  | Exception, Exception | TypeError, TypeError | ValueError, ValueError
  | AttributeError, AttributeError | KeyError, KeyError
  | IndexError, IndexError | OverflowError, OverflowError | OSError, OSError
  | ValidationError, ValidationError | RequestException, RequestException
  | HTTPError, HTTPError | ConnectionError, ConnectionError
  | Timeout, Timeout | JSONDecodeError, JSONDecodeError
  | WeatherAppError, WeatherAppError | APIError, APIError
  | InvalidAPIKeyError, InvalidAPIKeyError
  | LocationNotFoundError, LocationNotFoundError
  | RateLimitExceededError, RateLimitExceededError
  | ConfigurationError, ConfigurationError => true
  | _, _ => false
  end.

(** The base class each class is declared with. *)
Definition base (c : pyclass) : option pyclass :=
  match c with
  | Exception => None
  | TypeError | ValueError | AttributeError | KeyError | IndexError
  | OverflowError | OSError => Some Exception
  | ValidationError => Some ValueError
  | RequestException => Some OSError
  | HTTPError | ConnectionError | Timeout | JSONDecodeError => Some RequestException
  | WeatherAppError => Some Exception
  | APIError | LocationNotFoundError | ConfigurationError => Some WeatherAppError
  | InvalidAPIKeyError | RateLimitExceededError => Some APIError
  end.

Fixpoint issubclass_upto (depth : nat) (c d : pyclass) : bool :=
  pyclass_eqb c d ||
  match depth, base c with
  | S depth', Some b => issubclass_upto depth' b d
  | _, _ => false
  end.

(** No class above is more than four steps below [Exception]. *)
Definition issubclass (c d : pyclass) : bool := issubclass_upto 4 c d.

Module requests.

(** What the client reads of a [requests.Response]: the status line, the
    URL, and what [json()] gives, a decoded document or the message of the
    decoding error. *)
Record Response : Type := {
  status_code : Z;
  reason : string;
  url : string;
  body : value + string
}.

End requests.

(** One entry of a pydantic [ValidationError]: where in the input, and
    whether the field was missing or its value was rejected for the declared
    type. *)
Inductive loc_item : Type :=
| Key (k : string)
| Index (i : nat).

Inductive error_type : Type :=
| missing
| invalid (expected : string).

Definition verror : Type := list loc_item * error_type.

(** An exception object: its class, [str(e)], and the attributes the
    program reads back ([status_code], [message], [response], and
    [errors()] of a validation error). *)
Record exn : Type := {
  exn_class : pyclass;
  exn_str : string;
  exn_status_code : option value;
  exn_message : option value;
  exn_response : option requests.Response;
  exn_errors : list verror
}.

Definition plain (c : pyclass) (text : string) : exn :=
  {| exn_class := c; exn_str := text; exn_status_code := None;
     exn_message := None; exn_response := None; exn_errors := [] |}.

(** [isinstance(e, c)] *)
Definition isinstance (e : exn) (c : pyclass) : bool := issubclass (exn_class e) c.

Inductive result (A : Type) : Type :=
| Ok (a : A)
| Raise (e : exn).

Arguments Ok {A} a.
Arguments Raise {A} e.

Definition bind {A B : Type} (r : result A) (k : A -> result B) : result B :=
  match r with
  | Ok a => k a
  | Raise e => Raise e
  end.

Declare Scope py_scope.
Delimit Scope py_scope with py.
Notation "x <- r ;; k" := (bind r (fun x => k))
  (at level 61, r at next level, right associativity) : py_scope.
Notation "r ;;; k" := (bind r (fun _ => k))
  (at level 61, right associativity) : py_scope.
Local Open Scope py_scope.

(** [try: r  except c as e: handler e] *)
Definition try_except {A : Type} (r : result A) (c : pyclass)
    (handler : exn -> result A) : result A :=
  match r with
  | Ok a => Ok a
  | Raise e => if isinstance e c then handler e else Raise e
  end.

(** [o.name]: [AttributeError] when the object has no such attribute. *)
Definition getattr (o : value) (name : string) : result value :=
  match o with
  | VObj cls attrs =>
      match lookup name attrs with
      | Some v => Ok v
      | None => Raise (plain AttributeError
                  ("'" ++ cls ++ "' object has no attribute '" ++ name ++ "'"))
      end
  | _ => Raise (plain AttributeError
                  ("'" ++ type_name o ++ "' object has no attribute '" ++ name ++ "'"))
  end.

(** [hasattr(o, name)] *)
Definition hasattr (o : value) (name : string) : bool :=
  match getattr o name with Ok _ => true | Raise _ => false end.

(** ** The world outside the repository

    What the libraries and the operating system contribute, and the program
    only calls: the HTTP session, the clock, the conversions of pydantic's
    default (lax) mode for scalar fields, [repr] of floats and containers,
    [json.dumps] and the file system. *)
Record World : Type := {
  session_get : string -> list (string * value) -> Z -> result requests.Response;
  lax_int : value -> option Z;
  lax_float : value -> option float;
  lax_str : value -> option string;
  validation_text : string -> list verror -> string;
  float_repr : float -> string;
  container_repr : value -> string;
  fromtimestamp_isoformat : Z -> result string;
  now_isoformat : string;
  json_dumps : value -> option Z -> result string;
  write_text : string -> string -> result unit
}.

(** [str(v)], as an f-string field renders [v]. *)
Definition str_of (w : World) (v : value) : string :=
  match v with
  | VNone => "None"
  | VBool b => if b then "True" else "False"
  | VInt n => Str.of_Z n
  | VFloat x => float_repr w x
  | VStr s => s
  | _ => container_repr w v
  end.

(** ** pydantic models *)

Module pydantic.

(** The annotation of a field. The flag of a model's field says whether it
    is declared [Optional[...] = None]. *)
Inductive ftype : Type :=
| TInt
| TFloat
| TStr
| TList (t : ftype)
| TDict (t : ftype)
| TModel (cls : string) (fields : list (string * ftype * bool)).

Definition under (item : loc_item) (errs : list verror) : list verror :=
  map (fun e : verror => (item :: fst e, snd e)) errs.

Definition is_none (v : value) : bool :=
  match v with VNone => true | _ => false end.

Section Validation.

Variable w : World.

(** Validation of [v] against the annotation [t]: the validated value,
    or every error found, in field order. A model reads the keys it
    declares and ignores the others; an instance of the model itself is
    taken as it is. *)
Fixpoint validate (t : ftype) (v : value) {struct t} : value + list verror :=
  match t with
  | TInt =>
      match lax_int w v with
      | Some n => inl (VInt n)
      | None => inr [([], invalid "int")]
      end
  | TFloat =>
      match lax_float w v with
      | Some x => inl (VFloat x)
      | None => inr [([], invalid "float")]
      end
  | TStr =>
      match lax_str w v with
      | Some s => inl (VStr s)
      | None => inr [([], invalid "str")]
      end
  | TList t' =>
      match v with
      | VList xs =>
          let fix items (xs : list value) (i : nat)
              : list value * list verror :=
            match xs with
            | [] => ([], [])
            | x :: xs' =>
                let '(vs, errs) := items xs' (S i) in
                match validate t' x with
                | inl x' => (x' :: vs, errs)
                | inr es => (vs, (under (Index i) es ++ errs)%list)
                end
            end in
          match items xs 0%nat with
          | (vs, []) => inl (VList vs)
          | (_, errs) => inr errs
          end
      | _ => inr [([], invalid "list")]
      end
  | TDict t' =>
      match v with
      | VDict kvs =>
          let fix entries (kvs : list (string * value))
              : list (string * value) * list verror :=
            match kvs with
            | [] => ([], [])
            | (k, x) :: kvs' =>
                let '(vs, errs) := entries kvs' in
                match validate t' x with
                | inl x' => ((k, x') :: vs, errs)
                | inr es => (vs, (under (Key k) es ++ errs)%list)
                end
            end in
          match entries kvs with
          | (vs, []) => inl (VDict vs)
          | (_, errs) => inr errs
          end
      | _ => inr [([], invalid "dict")]
      end
  | TModel cls fields =>
      match v with
      | VDict kvs =>
          let fix attributes (fs : list (string * ftype * bool))
              : list (string * value) * list verror :=
            match fs with
            | [] => ([], [])
            | (name, ft, optional) :: fs' =>
                let '(attrs, errs) := attributes fs' in
                match lookup name kvs with
                | None =>
                    if optional then ((name, VNone) :: attrs, errs)
                    else (attrs, ([Key name], missing) :: errs)
                | Some x =>
                    if optional && is_none x then ((name, VNone) :: attrs, errs)
                    else match validate ft x with
                         | inl x' => ((name, x') :: attrs, errs)
                         | inr es => (attrs, (under (Key name) es ++ errs)%list)
                         end
                end
            end in
          match attributes fields with
          | (attrs, []) => inl (VObj cls attrs)
          | (_, errs) => inr errs
          end
      | VObj c _ => if String.eqb c cls then inl v else inr [([], invalid cls)]
      | _ => inr [([], invalid cls)]
      end
  end.

(** The attributes and the errors a model with the fields [fs] draws
    from the keys [kvs]: the loop of the model case of [validate],
    named. *)
Fixpoint attributes_of (kvs : list (string * value))
    (fs : list (string * ftype * bool))
    : list (string * value) * list verror :=
  match fs with
  | [] => ([], [])
  | (name, ft, optional) :: fs' =>
      let '(attrs, errs) := attributes_of kvs fs' in
      match lookup name kvs with
      | None =>
          if optional then ((name, VNone) :: attrs, errs)
          else (attrs, ([Key name], missing) :: errs)
      | Some x =>
          if optional && is_none x then ((name, VNone) :: attrs, errs)
          else match validate ft x with
               | inl x' => ((name, x') :: attrs, errs)
               | inr es => (attrs, (under (Key name) es ++ errs)%list)
               end
      end
  end.

(** The model class called with the entries of [data] as keyword
    arguments. *)
Definition construct (t : ftype) (data : list (string * value)) : result value :=
  match validate t (VDict data) with
  | inl obj => Ok obj
  | inr errs =>
      Raise {| exn_class := ValidationError;
               exn_str := validation_text w
                            (match t with TModel cls _ => cls | _ => "" end) errs;
               exn_status_code := None; exn_message := None;
               exn_response := None; exn_errors := errs |}
  end.

End Validation.

(** The declaration of the field [name] among [fs]. *)
Fixpoint field_of (name : string) (fs : list (string * ftype * bool))
    : option (ftype * bool) :=
  match fs with
  | [] => None
  | (name', ft, optional) :: fs' =>
      if String.eqb name name' then Some (ft, optional) else field_of name fs'
  end.

Definition names (fs : list (string * ftype * bool)) : list string :=
  map (fun f => fst (fst f)) fs.

End pydantic.

(** ** config.py *)

Module config.

Record Settings : Type := {
  OPENWEATHER_API_KEY : string;
  OPENWEATHER_BASE_URL : string;
  CACHE_TTL : Z;
  REQUEST_TIMEOUT : Z
}.

End config.

(** ** exceptions.py *)

Module exceptions.

(** The message of the [TypeError] a call with the wrong number of
    positional arguments raises; [takes] and [given] count [self]. *)
Definition arity_error (qualname : string) (takes given : Z) : exn :=
  plain TypeError
    (qualname ++ ".__init__() takes " ++ Str.of_Z takes
     ++ " positional arguments but " ++ Str.of_Z given ++ " were given").

Section Constructors.

Variable w : World.

(** [APIError.__init__(self, status_code, message)], inherited as it is
    by [RateLimitExceededError]. *)
Definition APIError_init (cls : pyclass) (args : list value) : result exn :=
  match args with
  | [status_code; message] =>
      Ok {| exn_class := cls;
            exn_str := "API Error " ++ str_of w status_code ++ ": " ++ str_of w message;
            exn_status_code := Some status_code;
            exn_message := Some message;
            exn_response := None; exn_errors := [] |}
  | _ => Raise (arity_error "APIError" 3 (1 + Z.of_nat (List.length args)))
  end.

(** [InvalidAPIKeyError.__init__(self, message)]: one argument, the
    status code is fixed to 401. *)
Definition InvalidAPIKeyError_init (args : list value) : result exn :=
  match args with
  | [message] => APIError_init InvalidAPIKeyError [VInt 401; message]
  | _ => Raise (arity_error "InvalidAPIKeyError" 2 (1 + Z.of_nat (List.length args)))
  end.

(** [Exception.__init__(self, *args)], which the classes without an
    [__init__] of their own inherit. *)
Definition Exception_init (cls : pyclass) (args : list value) : result exn :=
  Ok (plain cls match args with
                | [] => ""
                | [a] => str_of w a
                | _ => container_repr w (VList args)
                end).

(** A call of the class [cls] of this module with the positional
    arguments [args]. *)
Definition new (cls : pyclass) (args : list value) : result exn :=
  match cls with
  | APIError | RateLimitExceededError => APIError_init cls args
  | InvalidAPIKeyError => InvalidAPIKeyError_init args
  | _ => Exception_init cls args
  end.

(** [raise] of the exception such a call builds. *)
Definition raise_new {A : Type} (cls : pyclass) (args : list value) : result A :=
  e <- new cls args ;; Raise e.

End Constructors.

End exceptions.

(** ** weather.py *)

Module weather.

Import pydantic.

Definition required : bool := false.
Definition optional : bool := true.

Definition WeatherCondition : ftype :=
  TModel "WeatherCondition"
    [("id", TInt, required); ("main", TStr, required);
     ("description", TStr, required); ("icon", TStr, required)].

Definition MainWeatherData : ftype :=
  TModel "MainWeatherData"
    [("temp", TFloat, required); ("feels_like", TFloat, required);
     ("temp_min", TFloat, required); ("temp_max", TFloat, required);
     ("pressure", TInt, required); ("humidity", TInt, required);
     ("sea_level", TInt, optional); ("grnd_level", TInt, optional)].

Definition WindData : ftype :=
  TModel "WindData"
    [("speed", TFloat, required); ("deg", TInt, required);
     ("gust", TFloat, optional)].

Definition CloudData : ftype :=
  TModel "CloudData" [("all", TInt, required)].

Definition SystemData : ftype :=
  TModel "SystemData"
    [("type", TInt, optional); ("id", TInt, optional);
     ("country", TStr, required); ("sunrise", TInt, required);
     ("sunset", TInt, required)].

Definition WeatherResponse_fields : list (string * ftype * bool) :=
  [("coord", TDict TFloat, required);
   ("weather", TList WeatherCondition, required);
   ("base", TStr, required);
   ("main", MainWeatherData, required);
   ("visibility", TInt, required);
   ("wind", WindData, required);
   ("clouds", CloudData, required);
   ("dt", TInt, required);
   ("sys", SystemData, required);
   ("timezone", TInt, required);
   ("id", TInt, required);
   ("name", TStr, required);
   ("cod", TInt, required)].

Definition WeatherResponse : ftype :=
  TModel "WeatherResponse" WeatherResponse_fields.

Record WeatherClient : Type := {
  api_key : string;
  base_url : string
}.

(** [x or default] for an optional string. *)
Definition or_default (x : option string) (default : string) : string :=
  match x with
  | Some s => if String.eqb s "" then default else s
  | None => default
  end.

Definition WeatherClient_init (settings : config.Settings)
    (api_key base_url : option string) : WeatherClient :=
  {| api_key := or_default api_key (config.OPENWEATHER_API_KEY settings);
     base_url := or_default base_url (config.OPENWEATHER_BASE_URL settings) |}.

(** [response.raise_for_status()] *)
Definition raise_for_status (r : requests.Response) : result unit :=
  let status := requests.status_code r in
  let http_error (side : string) :=
    Raise {| exn_class := HTTPError;
             exn_str := Str.of_Z status ++ " " ++ side ++ " Error: "
                        ++ requests.reason r ++ " for url: " ++ requests.url r;
             exn_status_code := None; exn_message := None;
             exn_response := Some r; exn_errors := [] |} in
  if (400 <=? status) && (status <? 500) then http_error "Client"
  else if (500 <=? status) && (status <? 600) then http_error "Server"
  else Ok tt.

(** [response.json()] *)
Definition json (r : requests.Response) : result value :=
  match requests.body r with
  | inl data => Ok data
  | inr msg => Raise (plain JSONDecodeError msg)
  end.

(** [dict.get(key, default)] *)
Definition dict_get (kvs : list (string * value)) (key : string)
    (default : value) : value :=
  match lookup key kvs with Some v => v | None => default end.

(** [data.get(key, default)] on whatever [json()] returned. *)
Definition get (data : value) (key : string) (default : value) : result value :=
  match data with
  | VDict kvs => Ok (dict_get kvs key default)
  | _ => Raise (plain AttributeError
                  ("'" ++ type_name data ++ "' object has no attribute 'get'"))
  end.

(** [int(s)] *)
Definition int (s : string) : result value :=
  match Str.to_Z s with
  | Some n => Ok (VInt n)
  | None => Raise (plain ValueError
                     ("invalid literal for int() with base 10: '" ++ s ++ "'"))
  end.

Section Client.

Variable w : World.
Variable settings : config.Settings.

Definition _handle_api_error (status_code message : value) : result unit :=
  status_code_int <- match status_code with
                     | VStr s => int s
                     | _ => Ok status_code
                     end ;;
  if eq_int status_code_int 401 then
    exceptions.raise_new w InvalidAPIKeyError [status_code_int; message]
  else if eq_int status_code_int 404 then
    exceptions.raise_new w LocationNotFoundError
      [VStr ("Location not found: " ++ str_of w message)]
  else if eq_int status_code_int 429 then
    exceptions.raise_new w RateLimitExceededError [status_code_int; message]
  else
    exceptions.raise_new w APIError [status_code_int; message].

(** The [params] dictionary of the request. *)
Definition request_params (self : WeatherClient) (city : string)
    (country_code : option string) (units lang : string)
    : list (string * value) :=
  [("q", VStr match country_code with
              | Some cc => if String.eqb cc "" then city else city ++ "," ++ cc
              | None => city
              end);
   ("appid", VStr (api_key self));
   ("units", VStr units);
   ("lang", VStr lang)].

Definition get_weather_by_city (self : WeatherClient) (city : string)
    (country_code : option string) (units lang : string) : result value :=
  let params := request_params self city country_code units lang in
  try_except
    (response <- session_get w (base_url self) params
                   (config.REQUEST_TIMEOUT settings) ;;
     raise_for_status response ;;;
     data <- json response ;;
     cod <- get data "cod" VNone ;;
     (if negb (eq_int cod 200) then
        status_code <- get data "cod" (VInt 500) ;;
        message <- get data "message" (VStr "Unknown error") ;;
        _handle_api_error status_code message
      else Ok tt) ;;;
     match data with
     | VDict kvs => construct w WeatherResponse kvs
     | _ => Raise (plain TypeError "argument after ** must be a mapping")
     end)
    RequestException
    (fun e =>
       exceptions.raise_new w APIError
         [match exn_response e with
          | Some r => VInt (requests.status_code r)
          | None => VInt 500
          end;
          VStr (exn_str e)]).

End Client.

End weather.

(** ** cli.py *)

Module cli.

(** [d[key]] *)
Definition getitem (d : value) (key : string) : result value :=
  match d with
  | VDict kvs =>
      match lookup key kvs with
      | Some v => Ok v
      | None => Raise (plain KeyError ("'" ++ key ++ "'"))
      end
  | _ => Raise (plain TypeError
                  ("'" ++ type_name d ++ "' object is not subscriptable"))
  end.

(** [xs[0]] *)
Definition first (xs : value) : result value :=
  match xs with
  | VList (x :: _) => Ok x
  | VList [] => Raise (plain IndexError "list index out of range")
  | _ => Raise (plain TypeError
                  ("'" ++ type_name xs ++ "' object is not subscriptable"))
  end.

(** [v / 1000] *)
Definition per_thousand (v : value) : result float :=
  let finite (q : float) : result float :=
    match q with
    | S754_infinity _ =>
        Raise (plain OverflowError "integer division result too large for a float")
    | _ => Ok q
    end in
  match v with
  | VInt n => finite (Float.div_Z n 1000)
  | VBool b => finite (Float.div_Z (if b then 1 else 0) 1000)
  | VFloat x => Ok (SFdiv Float.prec Float.emax x (S754_finite false 1000 0))
  | _ => Raise (plain TypeError
                  ("unsupported operand type(s) for /: '" ++ type_name v
                   ++ "' and 'int'"))
  end.

(** The result of one run of the command: exit status, the lines echoed
    to the two streams, and the files written. *)
Record Outcome : Type := {
  exit_code : Z;
  stdout : list string;
  stderr : list string;
  files : list (string * string)
}.

Section Commands.

Variable w : World.
Variable settings : config.Settings.

(** [datetime.fromtimestamp(t).isoformat()] *)
Definition isoformat (t : value) : result value :=
  match t with
  | VInt n => s <- fromtimestamp_isoformat w n ;; Ok (VStr s)
  | _ => Raise (plain TypeError
                  ("'" ++ type_name t ++ "' object cannot be interpreted as an integer"))
  end.

Definition format_weather_data (weather_data : value) (units : string)
    : result value :=
  let temp_unit := if String.eqb units "metric" then "°C" else "°F" in
  let speed_unit := if String.eqb units "metric" then "m/s" else "mph" in
  city <- getattr weather_data "name" ;;
  sys <- getattr weather_data "sys" ;;
  country <- getattr sys "country" ;;
  coord <- getattr weather_data "coord" ;;
  lat <- getitem coord "lat" ;;
  lon <- getitem coord "lon" ;;
  conditions <- getattr weather_data "weather" ;;
  condition <- first conditions ;;
  main <- getattr condition "main" ;;
  description <- getattr condition "description" ;;
  icon <- getattr condition "icon" ;;
  measures <- getattr weather_data "main" ;;
  temp <- getattr measures "temp" ;;
  feels_like <- getattr measures "feels_like" ;;
  temp_min <- getattr measures "temp_min" ;;
  temp_max <- getattr measures "temp_max" ;;
  pressure <- getattr measures "pressure" ;;
  humidity <- getattr measures "humidity" ;;
  visibility <- getattr weather_data "visibility" ;;
  visibility_text <-
    (if truthy visibility then
       km <- per_thousand visibility ;; Ok (Float.format_1f km ++ " km")
     else Ok "N/A") ;;
  wind <- getattr weather_data "wind" ;;
  speed <- getattr wind "speed" ;;
  degree <- (if hasattr wind "deg" then getattr wind "deg" else Ok VNone) ;;
  gust <- (if hasattr wind "gust" then getattr wind "gust" else Ok VNone) ;;
  clouds <-
    (if hasattr weather_data "clouds" then
       cover <- getattr weather_data "clouds" ;;
       all <- getattr cover "all" ;;
       Ok (VStr (str_of w all ++ "%"))
     else Ok (VStr "N/A")) ;;
  rain <- (if hasattr weather_data "rain"
           then getattr weather_data "rain" else Ok VNone) ;;
  snow <- (if hasattr weather_data "snow"
           then getattr weather_data "snow" else Ok VNone) ;;
  sunrise_at <- getattr sys "sunrise" ;;
  sunrise <- isoformat sunrise_at ;;
  sunset_at <- getattr sys "sunset" ;;
  sunset <- isoformat sunset_at ;;
  timezone <- (if hasattr weather_data "timezone"
               then getattr weather_data "timezone" else Ok VNone) ;;
  Ok (VDict
    [("location", VDict
       [("city", city);
        ("country", country);
        ("coordinates", VDict [("lat", lat); ("lon", lon)])]);
     ("weather", VDict
       [("main", main);
        ("description", description);
        ("icon", icon);
        ("temperature", VDict
           [("current", temp);
            ("feels_like", feels_like);
            ("min", temp_min);
            ("max", temp_max);
            ("unit", VStr temp_unit)]);
        ("pressure", VStr (str_of w pressure ++ " hPa"));
        ("humidity", VStr (str_of w humidity ++ "%"));
        ("visibility", VStr visibility_text);
        ("wind", VDict
           [("speed", VStr (str_of w speed ++ " " ++ speed_unit));
            ("degree", degree);
            ("gust", gust)]);
        ("clouds", clouds);
        ("rain", rain);
        ("snow", snow);
        ("sun", VDict [("sunrise", sunrise); ("sunset", sunset)]);
        ("timezone", timezone);
        ("timestamp", VStr (now_isoformat w))])]).

(** [parts[i]] *)
Definition item (parts : list string) (i : nat) : result string :=
  match nth_error parts i with
  | Some p => Ok p
  | None => Raise (plain IndexError "list index out of range")
  end.

(** The city and the country code [get] hands to the client: the
    statements of [get] between the creation of the client and the
    call of [get_weather_by_city]. *)
Definition locate (location : string) (country : option string)
    : result (string * option string) :=
  if Str.contains "," location then
    let location_parts := map Str.strip (Str.split "," location) in
    city <- item location_parts 0 ;;
    country <- (if (1 <? Z.of_nat (List.length location_parts))
                then second <- item location_parts 1 ;; Ok (Some second)
                else Ok country) ;;
    Ok (city, country)
  else Ok (location, country).

Definition credential_message : string :=
  "Invalid or missing API key. Please set the OPENWEATHER_API_KEY "
  ++ "environment variable or use the --api-key option.".

Definition get (location : string) (country : option string)
    (units : string) (output : option string) (pretty : bool)
    (api_key : option string) : Outcome :=
  let attempt : result Outcome :=
    (match api_key with
     | Some (String _ _) => Ok tt
     | _ => exceptions.raise_new w InvalidAPIKeyError [VStr "API key is required"]
     end) ;;;
    let client := weather.WeatherClient_init settings api_key None in
    target <- locate location country ;;
    weather_data <- weather.get_weather_by_city w settings client
                      (fst target) (snd target) units "en" ;;
    formatted_data <- format_weather_data weather_data units ;;
    json_output <- json_dumps w formatted_data
                     (if pretty then Some 2 else None) ;;
    match output with
    | Some (String c path) =>
        write_text w (String c path) json_output ;;;
        Ok {| exit_code := 0; stdout := [];
              stderr := ["Weather data saved to " ++ String c path];
              files := [(String c path, json_output)] |}
    | _ =>
        Ok {| exit_code := 0; stdout := [json_output]; stderr := [];
              files := [] |}
    end in
  match attempt with
  | Ok outcome => outcome
  | Raise e =>
      if isinstance e WeatherAppError then
        let error_msg :=
          if isinstance e InvalidAPIKeyError then credential_message
          else exn_str e in
        {| exit_code := 1; stdout := []; stderr := ["Error: " ++ error_msg];
           files := [] |}
      else
        {| exit_code := 1; stdout := [];
           stderr := ["Unexpected error: " ++ exn_str e]; files := [] |}
  end.

End Commands.

End cli.

(** ** Vocabulary of the properties *)

(** The ways the transport of a request fails before a payload is read: the
    session raises one of the errors of requests (no connection, timeout),
    the response is an HTTP error, or its body does not decode. *)
Inductive transport_failure (w : World) (settings : config.Settings)
    (self : weather.WeatherClient) (params : list (string * value))
    : exn -> Prop :=
| session_failed (e : exn) :
    session_get w (weather.base_url self) params
      (config.REQUEST_TIMEOUT settings) = Raise e ->
    isinstance e RequestException = true ->
    transport_failure w settings self params e
| status_failed (r : requests.Response) (e : exn) :
    session_get w (weather.base_url self) params
      (config.REQUEST_TIMEOUT settings) = Ok r ->
    weather.raise_for_status r = Raise e ->
    transport_failure w settings self params e
| body_failed (r : requests.Response) (e : exn) :
    session_get w (weather.base_url self) params
      (config.REQUEST_TIMEOUT settings) = Ok r ->
    weather.raise_for_status r = Ok tt ->
    weather.json r = Raise e ->
    transport_failure w settings self params e.

(** The status a transport error carries, 500 when it carries no response. *)
Definition status_of (e : exn) : Z :=
  match exn_response e with
  | Some r => requests.status_code r
  | None => 500
  end.

(** A payload that breaks the contract of the response model: one of the
    required fields is absent, or its value is rejected for the declared
    type (for a nested model, because of a field inside it). *)
Definition breaks_contract (w : World) (kvs : list (string * value)) : Prop :=
  exists name ft,
    In (name, ft, weather.required) weather.WeatherResponse_fields /\
    (lookup name kvs = None \/
     exists x es, lookup name kvs = Some x /\ pydantic.validate w ft x = inr es).

(** The field of the formatted report at [path]. *)
Fixpoint at_path (path : list string) (v : value) : option value :=
  match path with
  | [] => Some v
  | key :: path' =>
      match v with
      | VDict kvs =>
          match lookup key kvs with
          | Some v' => at_path path' v'
          | None => None
          end
      | _ => None
      end
  end.

(** ** Test doubles and payloads, after [tests/]

    The provider is replaced by a fixed answer, as the tests do with a mock
    session; the scalar conversions are those of values that already have
    the declared type (an [int] also feeds a [float] field). *)

Module fixtures.

Definition exact_int (v : value) : option Z :=
  match v with VInt n => Some n | _ => None end.

Definition exact_float (v : value) : option float :=
  match v with
  | VFloat x => Some x
  | VInt n => Some (binary_normalize Float.prec Float.emax n 0 false)
  | _ => None
  end.

Definition exact_str (v : value) : option string :=
  match v with VStr s => Some s | _ => None end.

(** A world whose session answers every request with [answer]. *)
Definition mock (answer : list (string * value) -> result requests.Response)
    : World :=
  {| session_get := fun _ params _ => answer params;
     lax_int := exact_int;
     lax_float := exact_float;
     lax_str := exact_str;
     validation_text := fun cls errs =>
       Str.of_Z (Z.of_nat (List.length errs)) ++ " validation errors for " ++ cls;
     float_repr := Float.format_1f;
     container_repr := fun _ => "...";
     fromtimestamp_isoformat := fun t => Ok ("@" ++ Str.of_Z t);
     now_isoformat := "@now";
     json_dumps := fun _ _ => Ok "{...}";
     write_text := fun _ _ => Ok tt |}.

Definition settings : config.Settings :=
  {| config.OPENWEATHER_API_KEY := "env_key";
     config.OPENWEATHER_BASE_URL := "https://api.openweathermap.org/data/2.5/weather";
     config.CACHE_TTL := 600;
     config.REQUEST_TIMEOUT := 10 |}.

Definition client : weather.WeatherClient :=
  weather.WeatherClient_init settings (Some "test_key") None.

(** [a / b] as a decimal literal reads: 15.5 is [decimal 155 10]. *)
Definition decimal (a b : Z) : value := VFloat (Float.div_Z a b).

Definition london_wind : list (string * value) :=
  [("speed", decimal 36 10); ("deg", VInt 200)].

(** The payload of [test_get_weather_by_city_success], with the given
    [visibility] entries, [wind] object and status entries. *)
Definition london_with (visibility : list (string * value))
    (wind : list (string * value)) (cod : list (string * value))
    : list (string * value) :=
  [("coord", VDict [("lon", decimal (-1257) 10000); ("lat", decimal 515085 10000)]);
   ("weather", VList [VDict [("id", VInt 800); ("main", VStr "Clear");
                             ("description", VStr "clear sky");
                             ("icon", VStr "01d")]]);
   ("base", VStr "stations");
   ("main", VDict [("temp", decimal 155 10); ("feels_like", decimal 148 10);
                   ("temp_min", decimal 140 10); ("temp_max", decimal 160 10);
                   ("pressure", VInt 1012); ("humidity", VInt 72)])]
  ++ visibility ++
  [("wind", VDict wind);
   ("clouds", VDict [("all", VInt 0)]);
   ("dt", VInt 1620000000);
   ("sys", VDict [("type", VInt 2); ("id", VInt 2019646); ("country", VStr "GB");
                  ("sunrise", VInt 1619950000); ("sunset", VInt 1620000000)]);
   ("timezone", VInt 3600);
   ("id", VInt 2643743);
   ("name", VStr "London")]
  ++ cod.

Definition london : list (string * value) :=
  london_with [("visibility", VInt 10000)] london_wind [("cod", VInt 200)].

(** A 200 response carrying [data]. *)
Definition ok_response (data : value) : requests.Response :=
  {| requests.status_code := 200; requests.reason := "OK";
     requests.url := "https://api.openweathermap.org/data/2.5/weather";
     requests.body := inl data |}.

Definition answering (data : list (string * value)) : World :=
  mock (fun _ => Ok (ok_response (VDict data))).

(** A session that cannot connect, and says which location it was asked
    for. *)
Definition unreachable : World :=
  mock (fun params =>
          Raise (plain ConnectionError
                   match lookup "q" params with
                   | Some (VStr q) => "no route to host for q=" ++ q
                   | _ => "no route to host"
                   end)).

(** London under rain: the provider adds a [rain] object when it rains. *)
Definition london_rain : list (string * value) :=
  (london ++ [("rain", VDict [("1h", decimal 5 10)])])%list.

(** London without its visibility, and without the direction of the wind. *)
Definition london_no_visibility : list (string * value) :=
  london_with [] london_wind [("cod", VInt 200)].

Definition london_no_deg : list (string * value) :=
  london_with [("visibility", VInt 10000)] [("speed", decimal 36 10)]
    [("cod", VInt 200)].

(** London in fog so thick that the provider reports no visibility at all. *)
Definition london_fog : list (string * value) :=
  london_with [("visibility", VInt 0)] london_wind [("cod", VInt 200)].

(** The validated report of a payload, [None] when validation fails. *)
Definition report_of (data : list (string * value)) : value :=
  match pydantic.construct (answering data) weather.WeatherResponse data with
  | Ok obj => obj
  | Raise _ => VNone
  end.

(** What the formatter makes of it, [None] when it raises. *)
Definition formatted (data : list (string * value)) (units : string) : value :=
  match cli.format_weather_data (answering data) (report_of data) units with
  | Ok out => out
  | Raise _ => VNone
  end.

End fixtures.

(** ** weather.py: the rest of the response model and of the client *)

Module response.

(** The property [WeatherResponse.condition]. *)
Definition condition (self : value) : result value :=
  conditions <- getattr self "weather" ;;
  if truthy conditions then
    conditions <- getattr self "weather" ;; cli.first conditions
  else Ok VNone.

(** [model.model_dump()], which [model.dict()] also gives: the model and
    every model inside it as dictionaries. *)
Fixpoint model_dump (v : value) : value :=
  match v with
  | VList xs => VList (map model_dump xs)
  | VDict kvs => VDict (map (fun kv => let '(k, x) := kv in (k, model_dump x)) kvs)
  | VObj _ attrs => VDict (map (fun kv => let '(k, x) := kv in (k, model_dump x)) attrs)
  | _ => v
  end.

End response.

(** ** weather.py at the root of the repository: the script *)

Module script.

(** [v[0]] for whatever [get] returned: the first item of a list, the
    first character of a string. *)
Definition index0 (v : value) : result value :=
  match v with
  | VList (x :: _) => Ok x
  | VList [] => Raise (plain IndexError "list index out of range")
  | VStr (String c rest) =>
      let n := Str.code c in
      Ok (VStr (if (n <? 192)%N then String c ""
                else match rest with
                     | String c2 rest2 =>
                         if (n <? 224)%N then String c (String c2 "")
                         else match rest2 with
                              | String c3 rest3 =>
                                  if (n <? 240)%N then String c (String c2 (String c3 ""))
                                  else match rest3 with
                                       | String c4 _ =>
                                           String c (String c2 (String c3 (String c4 "")))
                                       | EmptyString => String c (String c2 (String c3 ""))
                                       end
                              | EmptyString => String c (String c2 "")
                              end
                     | EmptyString => String c ""
                     end))
  | VStr EmptyString => Raise (plain IndexError "string index out of range")
  | VDict _ => Raise (plain KeyError "0")
  | _ => Raise (plain TypeError
                  ("'" ++ type_name v ++ "' object is not subscriptable"))
  end.

(** The arguments [argparse] hands to [main]. *)
Record Args : Type := {
  location : string;
  country : option string;
  units : string;
  output : option string;
  pretty : bool;
  api_key : option string
}.

Definition key_required : string :=
  "API key is required. Set OPENWEATHER_API_KEY environment variable "
  ++ "or pass it with --api-key".

Section Script.

Variable w : World.
Variable settings : config.Settings.

(** [os.getenv] *)
Variable getenv : string -> option string.

Definition format_weather_data (weather_data : value) (units : string)
    : result value :=
  let temp_unit := if String.eqb units "metric" then "°C" else "°F" in
  let speed_unit := if String.eqb units "metric" then "m/s" else "mph" in
  coord <- weather.get weather_data "coord" (VDict []) ;;
  main <- weather.get weather_data "main" (VDict []) ;;
  conditions <- weather.get weather_data "weather" (VList [VDict []]) ;;
  condition <- index0 conditions ;;
  wind <- weather.get weather_data "wind" (VDict []) ;;
  sys <- weather.get weather_data "sys" (VDict []) ;;
  city <- weather.get weather_data "name" (VStr "Unknown") ;;
  country <- weather.get sys "country" (VStr "") ;;
  lat <- weather.get coord "lat" VNone ;;
  lon <- weather.get coord "lon" VNone ;;
  summary <- weather.get condition "main" (VStr "") ;;
  description <- weather.get condition "description" (VStr "") ;;
  icon <- weather.get condition "icon" (VStr "") ;;
  temp <- weather.get main "temp" VNone ;;
  feels_like <- weather.get main "feels_like" VNone ;;
  temp_min <- weather.get main "temp_min" VNone ;;
  temp_max <- weather.get main "temp_max" VNone ;;
  pressure <- weather.get main "pressure" VNone ;;
  humidity <- weather.get main "humidity" VNone ;;
  visibility <- weather.get weather_data "visibility" VNone ;;
  visibility_text <-
    (if truthy visibility then
       metres <- weather.get weather_data "visibility" (VInt 0) ;;
       km <- cli.per_thousand metres ;; Ok (Float.format_1f km ++ " km")
     else Ok "N/A") ;;
  speed <- weather.get wind "speed" (VInt 0) ;;
  degree <- weather.get wind "deg" VNone ;;
  gust <- weather.get wind "gust" VNone ;;
  cover <- weather.get weather_data "clouds" (VDict []) ;;
  all <- weather.get cover "all" VNone ;;
  rain <- weather.get weather_data "rain" VNone ;;
  snow <- weather.get weather_data "snow" VNone ;;
  sunrise <- weather.get sys "sunrise" VNone ;;
  sunset <- weather.get sys "sunset" VNone ;;
  timezone <- weather.get weather_data "timezone" VNone ;;
  dt <- weather.get weather_data "dt" VNone ;;
  Ok (VDict
    [("location", VDict
       [("city", city);
        ("country", country);
        ("coordinates", VDict [("lat", lat); ("lon", lon)])]);
     ("weather", VDict
       [("main", summary);
        ("description", description);
        ("icon", icon);
        ("temperature", VDict
           [("current", temp);
            ("feels_like", feels_like);
            ("min", temp_min);
            ("max", temp_max);
            ("unit", VStr temp_unit)]);
        ("pressure", VStr (if pydantic.is_none pressure then "N/A"
                           else str_of w pressure ++ " hPa"));
        ("humidity", VStr (if pydantic.is_none humidity then "N/A"
                           else str_of w humidity ++ "%"));
        ("visibility", VStr visibility_text);
        ("wind", VDict
           [("speed", VStr (str_of w speed ++ " " ++ speed_unit));
            ("degree", degree);
            ("gust", gust)]);
        ("clouds", VStr (if pydantic.is_none all then "N/A"
                         else str_of w all ++ "%"));
        ("rain", rain);
        ("snow", snow);
        ("sun", VDict [("sunrise", sunrise); ("sunset", sunset)]);
        ("timezone", timezone);
        ("timestamp", dt)])]).

Definition get_weather (location : string) (country : option string)
    (units : string) (api_key : option string) : result value :=
  api_key <- match api_key with
             | Some (String c key) => Ok (String c key)
             | _ => match getenv "OPENWEATHER_API_KEY" with
                    | Some (String c key) => Ok (String c key)
                    | _ => Raise (plain ValueError key_required)
                    end
             end ;;
  let client := weather.WeatherClient_init settings (Some api_key) None in
  target <- cli.locate location country ;;
  try_except
    (weather_data <- weather.get_weather_by_city w settings client
                       (fst target) (snd target) units "en" ;;
     let weather_data := match weather_data with
                         | VObj _ _ => response.model_dump weather_data
                         | _ => weather_data
                         end in
     format_weather_data weather_data units)
    WeatherAppError
    (fun e => Raise (plain ValueError ("Failed to fetch weather data: " ++ exn_str e))).

(** [main], from the parsed arguments on. *)
Definition main (args : Args) : cli.Outcome :=
  let attempt : result cli.Outcome :=
    weather_data <- get_weather (location args) (country args) (units args)
                      (api_key args) ;;
    json_output <- json_dumps w weather_data
                     (if pretty args then Some 2 else None) ;;
    match output args with
    | Some (String c path) =>
        write_text w (String c path) json_output ;;;
        Ok {| cli.exit_code := 0; cli.stdout := [];
              cli.stderr := ["Weather data saved to " ++ String c path];
              cli.files := [(String c path, json_output)] |}
    | _ =>
        Ok {| cli.exit_code := 0; cli.stdout := [json_output]; cli.stderr := [];
              cli.files := [] |}
    end in
  match attempt with
  | Ok outcome => outcome
  | Raise e =>
      {| cli.exit_code := 1; cli.stdout := [];
         cli.stderr := ["Error: " ++ exn_str e]; cli.files := [] |}
  end.

End Script.

End script.

(** ** A check of the rendered visibility *)

(** Whether the kilometres rendered for [n] metres read "<d>.<d>" for a
    number of tenths within fifty metres of [n]. *)
Definition rendering_ok (n : Z) : bool :=
  existsb
    (fun t =>
       String.eqb (Float.format_1f (Float.div_Z n 1000))
         (Str.of_Z (t / 10) ++ "." ++ Str.of_Z (t mod 10))
       && (Z.abs (100 * t - n) <=? 50))
    [n / 100; n / 100 + 1].

(** ** Worlds that differ by their session *)


(** * Properties *)

Local Open Scope string_scope.

(** ** The string operations on examples *)

Example split_london : Str.split "," "London,uk" = ["London"; "uk"].
Proof. reflexivity. Qed.

Example strip_spaces : Str.strip "  New York   " = "New York".
Proof. reflexivity. Qed.

Example int_of_404 : Str.to_Z "404" = Some 404.
Proof. reflexivity. Qed.

Example str_of_1012 : Str.of_Z 1012 = "1012".
Proof. reflexivity. Qed.

Example ten_km : Float.format_1f (Float.div_Z 10000 1000) = "10.0".
Proof. reflexivity. Qed.

(** 0.05 is not a binary fraction: its double lies above 1/20. *)
Example fifty_metres : Float.format_1f (Float.div_Z 50 1000) = "0.1".
Proof. reflexivity. Qed.

(** 0.25 is one: the tie goes to the even digit. *)
Example quarter_km : Float.format_1f (Float.div_Z 250 1000) = "0.2".
Proof. reflexivity. Qed.

(** ** The result monad *)

Lemma bind_Ok {A B : Type} (r : result A) (k : A -> result B) (b : B) :
  bind r k = Ok b -> exists a, r = Ok a /\ k a = Ok b.
Proof.
  destruct r as [a | e]; simpl; intros H; [eauto | discriminate].
Qed.

Lemma try_except_other {A : Type} (r : result A) (c : pyclass) handler e :
  r = Raise e -> isinstance e c = false -> try_except r c handler = Raise e.
Proof.
  intros -> H. unfold try_except. now rewrite H.
Qed.

Lemma try_except_caught {A : Type} (r : result A) (c : pyclass) handler e :
  r = Raise e -> isinstance e c = true -> try_except r c handler = handler e.
Proof.
  intros -> H. unfold try_except. now rewrite H.
Qed.

(** Every class descends from [Exception]: the second handler of [get]
    catches whatever the first lets through. *)
Lemma every_class_is_an_exception (c : pyclass) : issubclass c Exception = true.
Proof. destruct c; reflexivity. Qed.

(** ** Validation *)

Section ValidationFacts.

Import pydantic.

Variable w : World.

Lemma lookup_absent k (kvs : list (string * value)) :
  ~ In k (map fst kvs) -> lookup k kvs = None.
Proof.
  induction kvs as [| [k' v] kvs IH]; simpl; intros H; [reflexivity |].
  destruct (String.eqb_spec k k') as [-> | _]; [tauto |].
  apply IH. tauto.
Qed.

(** The loop inside [validate] is [attributes_of]. *)
Lemma validate_model cls fs kvs :
  validate w (TModel cls fs) (VDict kvs) =
  match attributes_of w kvs fs with
  | (attrs, []) => inl (VObj cls attrs)
  | (_, errs) => inr errs
  end.
Proof.
  simpl.
  match goal with
  | |- match ?f fs with _ => _ end = _ =>
      assert (E : forall gs, f gs = attributes_of w kvs gs);
      [| now rewrite E]
  end.
  induction gs as [| [[name ft] optional] gs IH]; [reflexivity |].
  simpl. now rewrite IH.
Qed.

(** A failed validation reports at least one error. *)
Lemma validate_errors_nonempty t v es :
  validate w t v = inr es -> es <> [].
Proof.
  destruct t; simpl.
  - destruct (lax_int w v); intros H; inversion H; discriminate.
  - destruct (lax_float w v); intros H; inversion H; discriminate.
  - destruct (lax_str w v); intros H; inversion H; discriminate.
  - destruct v; try (intros H; inversion H; discriminate).
    match goal with |- match ?r with _ => _ end = _ -> _ => destruct r as [vs [| e errs]] end;
      intros H; inversion H; discriminate.
  - destruct v; try (intros H; inversion H; discriminate).
    match goal with |- match ?r with _ => _ end = _ -> _ => destruct r as [vs [| e errs]] end;
      intros H; inversion H; discriminate.
  - destruct v; try (intros H; inversion H; discriminate).
    + match goal with |- match ?r with _ => _ end = _ -> _ => destruct r as [vs [| e errs]] end;
        intros H; inversion H; discriminate.
    + destruct (String.eqb cls0 cls); intros H; inversion H; discriminate.
Qed.

(** The errors of the later fields stay in the report. *)
Lemma attributes_errors_grow kvs f fs e :
  In e (snd (attributes_of w kvs fs)) ->
  In e (snd (attributes_of w kvs (f :: fs))).
Proof.
  destruct f as [[name ft] optional]. simpl.
  destruct (attributes_of w kvs fs) as [attrs errs]. simpl. intros H.
  destruct (lookup name kvs) as [x |].
  - destruct (optional && is_none x); [exact H |].
    destruct (validate w ft x); simpl; [exact H |].
    apply in_or_app. now right.
  - destruct optional; simpl; [exact H | now right].
Qed.

(** A required field absent from the input is reported as missing. *)
Lemma attributes_missing kvs fs name ft :
  In (name, ft, false) fs -> lookup name kvs = None ->
  In ([Key name], missing) (snd (attributes_of w kvs fs)).
Proof.
  induction fs as [| f fs IH]; simpl; [tauto |].
  intros [-> | Hin] Hnone.
  - rewrite Hnone. destruct (attributes_of w kvs fs). simpl. now left.
  - apply (attributes_errors_grow kvs f fs). now apply IH.
Qed.

(** A required field whose value is rejected is reported under its name. *)
Lemma attributes_invalid kvs fs name ft x es e :
  In (name, ft, false) fs -> lookup name kvs = Some x ->
  validate w ft x = inr es -> In e es ->
  In (Key name :: fst e, snd e) (snd (attributes_of w kvs fs)).
Proof.
  induction fs as [| f fs IH]; simpl; [tauto |].
  intros [-> | Hin] Hx Hes He.
  - rewrite Hx, Hes. destruct (attributes_of w kvs fs). simpl.
    apply in_or_app. left. unfold under.
    now apply (in_map (fun e0 : verror => (Key name :: fst e0, snd e0))).
  - apply (attributes_errors_grow kvs f fs). now apply IH.
Qed.

(** A model that validates has exactly the attributes it declares. *)
Lemma attributes_names kvs fs :
  snd (attributes_of w kvs fs) = [] ->
  map fst (fst (attributes_of w kvs fs)) = names fs.
Proof.
  induction fs as [| [[name ft] optional] fs IH]; simpl; [reflexivity |].
  destruct (attributes_of w kvs fs) as [attrs errs]. simpl in *.
  destruct (lookup name kvs) as [x |].
  - destruct (optional && is_none x); simpl.
    + intros H. now rewrite (IH H).
    + destruct (validate w ft x) as [x' | es] eqn:E; simpl.
      * intros H. now rewrite (IH H).
      * intros H. apply app_eq_nil in H. destruct H as [H _].
        apply validate_errors_nonempty in E.
        destruct es; [congruence | discriminate].
  - destruct optional; simpl; [| discriminate].
    intros H. now rewrite (IH H).
Qed.

End ValidationFacts.

Section ModelFacts.

Import pydantic.

Variable w : World.

(** What a validated model stores for a required field: the validated
    form of the value the input carries under that name. *)
Lemma attributes_required kvs fs name ft :
  snd (attributes_of w kvs fs) = [] ->
  field_of name fs = Some (ft, false) ->
  exists x v, lookup name kvs = Some x /\ validate w ft x = inl v /\
              lookup name (fst (attributes_of w kvs fs)) = Some v.
Proof.
  induction fs as [| [[name' ft'] optional] fs IH]; simpl; [discriminate |].
  destruct (attributes_of w kvs fs) as [attrs errs]. simpl in IH.
  destruct (String.eqb_spec name name') as [<- | Hne].
  - intros Herrs Hfield. inversion Hfield; subst. revert Herrs.
    destruct (lookup name kvs) as [x |]; cbn [fst snd andb]; [| discriminate].
    destruct (validate w ft x) as [x' | es] eqn:E; cbn [fst snd]; intros Herrs.
    + exists x, x'. simpl. rewrite String.eqb_refl. auto.
    + apply app_eq_nil in Herrs. destruct Herrs as [Herrs _].
      apply validate_errors_nonempty in E.
      destruct es; [congruence | discriminate].
  - intros Herrs Hfield.
    assert (Hskip : forall y, lookup name ((name', y) :: attrs) = lookup name attrs).
    { intros y. simpl. destruct (String.eqb_spec name name'); [contradiction | reflexivity]. }
    assert (Htail : errs = []).
    { revert Herrs. destruct (lookup name' kvs) as [x |].
      - destruct (optional && is_none x); cbn [fst snd]; [auto |].
        destruct (validate w ft' x); cbn [fst snd]; [auto |].
        intros H. apply app_eq_nil in H. tauto.
      - destruct optional; cbn [fst snd]; [auto | discriminate]. }
    destruct (IH Htail Hfield) as (x & v & Hx & Hv & Hattr).
    exists x, v. repeat split; try assumption.
    subst errs. revert Herrs.
    destruct (lookup name' kvs) as [x0 |].
    + destruct (optional && is_none x0); cbn [fst snd].
      * intros _. now rewrite Hskip.
      * destruct (validate w ft' x0) as [x' | es] eqn:E; cbn [fst snd].
        -- intros _. now rewrite Hskip.
        -- intros H. apply app_eq_nil in H. destruct H as [H _].
           apply validate_errors_nonempty in E.
           destruct es; [congruence | discriminate].
    + destruct optional; cbn [fst snd]; [| discriminate].
      intros _. now rewrite Hskip.
Qed.

(** An optional field absent from the input is stored as [None]. *)
Lemma attributes_defaulted kvs fs name ft :
  snd (attributes_of w kvs fs) = [] ->
  field_of name fs = Some (ft, true) ->
  lookup name kvs = None ->
  lookup name (fst (attributes_of w kvs fs)) = Some VNone.
Proof.
  induction fs as [| [[name' ft'] optional] fs IH]; simpl; [discriminate |].
  destruct (attributes_of w kvs fs) as [attrs errs]. simpl in IH.
  destruct (String.eqb_spec name name') as [<- | Hne].
  - intros _ Hfield Hnone. inversion Hfield; subst.
    rewrite Hnone. simpl. now rewrite String.eqb_refl.
  - intros Herrs Hfield Hnone.
    assert (Hskip : forall y, lookup name ((name', y) :: attrs) = lookup name attrs).
    { intros y. simpl. destruct (String.eqb_spec name name'); [contradiction | reflexivity]. }
    revert Herrs.
    destruct (lookup name' kvs) as [x0 |].
    + destruct (optional && is_none x0); cbn [fst snd].
      * intros H. rewrite Hskip. auto.
      * destruct (validate w ft' x0) as [x' | es] eqn:E; cbn [fst snd].
        -- intros H. rewrite Hskip. auto.
        -- intros H. apply app_eq_nil in H. destruct H as [H _].
           apply validate_errors_nonempty in E.
           destruct es; [congruence | discriminate].
    + destruct optional; cbn [fst snd]; [| discriminate].
      intros H. rewrite Hskip. auto.
Qed.

Lemma construct_Ok cls fs kvs obj :
  construct w (TModel cls fs) kvs = Ok obj ->
  exists attrs, obj = VObj cls attrs /\ attributes_of w kvs fs = (attrs, []).
Proof.
  unfold construct. rewrite validate_model.
  destruct (attributes_of w kvs fs) as [attrs [| e errs]]; [| discriminate].
  intros H. inversion H. eauto.
Qed.

(** Construction fails exactly with a validation error that lists the
    errors of the fields. *)
Lemma construct_Raise cls fs kvs :
  snd (attributes_of w kvs fs) <> [] ->
  exists e, construct w (TModel cls fs) kvs = Raise e /\
            exn_class e = ValidationError /\
            exn_errors e = snd (attributes_of w kvs fs).
Proof.
  unfold construct. rewrite validate_model.
  destruct (attributes_of w kvs fs) as [attrs [| e errs]]; simpl; [congruence |].
  intros _. eexists. split; [reflexivity |]. simpl. auto.
Qed.

Lemma construct_raises_ValidationError t kvs e :
  construct w t kvs = Raise e -> exn_class e = ValidationError.
Proof.
  unfold construct. destruct (validate w t (VDict kvs)); [discriminate |].
  intros H. inversion H. reflexivity.
Qed.

End ModelFacts.

(** ** The client *)

Section ClientFacts.

Import weather.

Variable w : World.
Variable settings : config.Settings.

(** The dispatch never returns, and nothing it raises is a transport
    error. *)
Lemma handle_api_error_raises status_code message :
  exists e, _handle_api_error w status_code message = Raise e /\
            isinstance e RequestException = false.
Proof.
  unfold _handle_api_error.
  assert (H : forall code : value,
            exists e,
              (if eq_int code 401 then
                 exceptions.raise_new w InvalidAPIKeyError [code; message]
               else if eq_int code 404 then
                 exceptions.raise_new w LocationNotFoundError
                   [VStr ("Location not found: " ++ str_of w message)]
               else if eq_int code 429 then
                 exceptions.raise_new w RateLimitExceededError [code; message]
               else exceptions.raise_new w APIError [code; message])
              = (Raise e : result unit) /\
              isinstance e RequestException = false).
  { intros code.
    destruct (eq_int code 401); [| destruct (eq_int code 404); [| destruct (eq_int code 429)]];
      eexists; (split; [reflexivity | reflexivity]). }
  destruct status_code as [| b | n | x | s | xs | entries | cls attrs];
    cbn [bind]; try apply H.
  unfold int. destruct (Str.to_Z s); cbn [bind]; [apply H |].
  eexists. split; reflexivity.
Qed.

Section Answered.

Variables (self : WeatherClient) (city : string) (country_code : option string).
Variables (units lang : string).
Variables (response : requests.Response) (kvs : list (string * value)).

(** The session answers the request of this call with a response that
    is not an HTTP error and carries the JSON object [kvs]. *)
Hypothesis answered :
  session_get w (base_url self)
    (request_params self city country_code units lang)
    (config.REQUEST_TIMEOUT settings) = Ok response.
Hypothesis passed : raise_for_status response = Ok tt.
Hypothesis decoded : requests.body response = inl (VDict kvs).

(** A payload whose status equals 200 goes to validation, and the
    outcome of validation is the outcome of the call. *)
Lemma success_path :
  eq_int (dict_get kvs "cod" VNone) 200 = true ->
  get_weather_by_city w settings self city country_code units lang
  = pydantic.construct w WeatherResponse kvs.
Proof.
  intros Hcod. unfold get_weather_by_city.
  rewrite answered. cbn [bind]. rewrite passed. cbn [bind].
  unfold json. rewrite decoded. cbn [bind get]. rewrite Hcod. cbn [negb bind].
  destruct (pydantic.construct w WeatherResponse kvs) as [obj | e] eqn:E;
    [reflexivity |].
  apply try_except_other; [reflexivity |].
  apply construct_raises_ValidationError in E.
  unfold isinstance. now rewrite E.
Qed.

(** Any other payload goes to the dispatch, whose exception leaves the
    call as it is. *)
Lemma failure_path e :
  eq_int (dict_get kvs "cod" VNone) 200 = false ->
  _handle_api_error w (dict_get kvs "cod" (VInt 500))
    (dict_get kvs "message" (VStr "Unknown error")) = Raise e ->
  get_weather_by_city w settings self city country_code units lang = Raise e.
Proof.
  intros Hcod He. unfold get_weather_by_city.
  rewrite answered. cbn [bind]. rewrite passed. cbn [bind].
  unfold json. rewrite decoded. cbn [bind get]. rewrite Hcod. cbn [negb bind].
  rewrite He. cbn [bind].
  apply try_except_other; [reflexivity |].
  destruct (handle_api_error_raises (dict_get kvs "cod" (VInt 500))
              (dict_get kvs "message" (VStr "Unknown error"))) as (e' & He' & Hclass).
  congruence.
Qed.

End Answered.

End ClientFacts.

(** *** Transport failures *)

Lemma raise_for_status_raises_HTTPError r e :
  weather.raise_for_status r = Raise e ->
  exn_class e = HTTPError /\ exn_response e = Some r.
Proof.
  unfold weather.raise_for_status.
  destruct ((400 <=? requests.status_code r)%Z && (requests.status_code r <? 500)%Z);
    [intros H; inversion H; auto |].
  destruct ((500 <=? requests.status_code r)%Z && (requests.status_code r <? 600)%Z);
    [intros H; inversion H; auto | discriminate].
Qed.

Lemma json_raises_JSONDecodeError r e :
  weather.json r = Raise e -> exn_class e = JSONDecodeError /\ exn_response e = None.
Proof.
  unfold weather.json. destruct (requests.body r); [discriminate |].
  intros H. inversion H. auto.
Qed.

(** C4. Whenever the transport of the request fails (the session raises an
    error of requests, the response is an HTTP error, or the body does not
    decode), the client raises an exception of class [APIError] exactly,
    whose status code is that of the response the failure carries, 500 when
    it carries none, and whose message is the text of the transport
    failure. *)
Theorem transport_failure_raises_APIError :
  forall (w : World) (settings : config.Settings) (self : weather.WeatherClient)
         (city : string) (country_code : option string) (units lang : string)
         (e : exn),
    transport_failure w settings self
      (weather.request_params self city country_code units lang) e ->
    exists e',
      weather.get_weather_by_city w settings self city country_code units lang
      = Raise e' /\
      exn_class e' = APIError /\
      exn_status_code e' = Some (VInt (status_of e)) /\
      exn_message e' = Some (VStr (exn_str e)) /\
      exn_str e' = "API Error " ++ Str.of_Z (status_of e) ++ ": " ++ exn_str e /\
      (exn_response e = None -> exn_status_code e' = Some (VInt 500)).
Proof.
  intros w settings self city country_code units lang e Hfail.
  assert (Hhandler :
    forall r : result value, r = Raise e -> isinstance e RequestException = true ->
    exists e',
      try_except r RequestException
        (fun e0 => exceptions.raise_new w APIError
           [match exn_response e0 with
            | Some r0 => VInt (requests.status_code r0)
            | None => VInt 500
            end; VStr (exn_str e0)]) = Raise e' /\
      exn_class e' = APIError /\
      exn_status_code e' = Some (VInt (status_of e)) /\
      exn_message e' = Some (VStr (exn_str e)) /\
      exn_str e' = "API Error " ++ Str.of_Z (status_of e) ++ ": " ++ exn_str e /\
      (exn_response e = None -> exn_status_code e' = Some (VInt 500))).
  { intros r -> Hclass. unfold try_except. rewrite Hclass.
    unfold status_of. destruct (exn_response e) as [r0 |]; eexists;
      (split; [reflexivity |]); cbn; repeat split; auto; discriminate. }
  unfold weather.get_weather_by_city.
  destruct Hfail as [e Hsession Hclass | r e Hsession Hstatus | r e Hsession Hstatus Hjson];
    apply Hhandler.
  - now rewrite Hsession.
  - assumption.
  - rewrite Hsession. cbn [bind]. now rewrite Hstatus.
  - apply raise_for_status_raises_HTTPError in Hstatus.
    unfold isinstance. destruct Hstatus as [-> _]. reflexivity.
  - rewrite Hsession. cbn [bind]. rewrite Hstatus. cbn [bind]. now rewrite Hjson.
  - apply json_raises_JSONDecodeError in Hjson.
    unfold isinstance. destruct Hjson as [-> _]. reflexivity.
Qed.

(** The session cannot connect: the client reports status 500 and the text
    of the connection error. *)
Lemma transport_failure_witness :
  exists e',
    weather.get_weather_by_city fixtures.unreachable fixtures.settings
      fixtures.client "London" None "metric" "en" = Raise e' /\
    exn_class e' = APIError /\
    exn_status_code e' = Some (VInt 500) /\
    exn_message e' = Some (VStr "no route to host for q=London") /\
    exn_str e' = "API Error 500: no route to host for q=London" /\
    (@None requests.Response = None -> exn_status_code e' = Some (VInt 500)).
Proof.
  apply (transport_failure_raises_APIError fixtures.unreachable fixtures.settings
           fixtures.client "London" None "metric" "en"
           (plain ConnectionError "no route to host for q=London")).
  apply session_failed; reflexivity.
Defined.

(** *** Contract breaches *)

Lemma breach_fails_validation w kvs :
  breaks_contract w kvs ->
  snd (pydantic.attributes_of w kvs weather.WeatherResponse_fields) <> [].
Proof.
  intros (name & ft & Hin & [Hnone | (x & es & Hx & Hes)]).
  - intros Hnil.
    pose proof (attributes_missing w kvs _ name ft Hin Hnone) as H.
    rewrite Hnil in H. destruct H.
  - intros Hnil.
    pose proof (validate_errors_nonempty w ft x es Hes) as Hne.
    destruct es as [| e es]; [congruence |].
    pose proof (attributes_invalid w kvs _ name ft x (e :: es) e Hin Hx Hes
                  (or_introl eq_refl)) as H.
    rewrite Hnil in H. destruct H.
Qed.

(** C3. A payload with a success status that lacks a required field of the
    response model, or carries one whose value is rejected for its type,
    makes the call raise pydantic's [ValidationError], which is not an
    instance of any class of the application: not [LocationNotFoundError],
    [InvalidAPIKeyError], [RateLimitExceededError] or [APIError]. *)
Theorem contract_breach_raises_ValidationError :
  forall (w : World) (settings : config.Settings) (self : weather.WeatherClient)
         (city : string) (country_code : option string) (units lang : string)
         (response : requests.Response) (kvs : list (string * value)),
    session_get w (weather.base_url self)
      (weather.request_params self city country_code units lang)
      (config.REQUEST_TIMEOUT settings) = Ok response ->
    weather.raise_for_status response = Ok tt ->
    requests.body response = inl (VDict kvs) ->
    eq_int (weather.dict_get kvs "cod" VNone) 200 = true ->
    breaks_contract w kvs ->
    exists e,
      weather.get_weather_by_city w settings self city country_code units lang
      = Raise e /\
      exn_class e = ValidationError /\
      exn_errors e <> [] /\
      isinstance e WeatherAppError = false /\
      isinstance e LocationNotFoundError = false /\
      isinstance e InvalidAPIKeyError = false /\
      isinstance e RateLimitExceededError = false /\
      isinstance e APIError = false.
Proof.
  intros w settings self city country_code units lang response kvs
         Hanswered Hpassed Hdecoded Hcod Hbreach.
  rewrite (success_path w settings self city country_code units lang response kvs
             Hanswered Hpassed Hdecoded Hcod).
  apply breach_fails_validation in Hbreach.
  destruct (construct_Raise w "WeatherResponse" weather.WeatherResponse_fields kvs Hbreach)
    as (e & He & Hclass & Herrs).
  exists e. split; [exact He |]. split; [exact Hclass |].
  split; [now rewrite Herrs |].
  unfold isinstance. rewrite Hclass. repeat split.
Qed.

(** The London payload without its visibility. *)
Lemma contract_breach_witness :
  exists e,
    weather.get_weather_by_city
      (fixtures.answering (fixtures.london_with [] fixtures.london_wind [("cod", VInt 200)]))
      fixtures.settings fixtures.client "London" None "metric" "en" = Raise e /\
    exn_class e = ValidationError /\
    exn_errors e <> [] /\
    isinstance e WeatherAppError = false /\
    isinstance e LocationNotFoundError = false /\
    isinstance e InvalidAPIKeyError = false /\
    isinstance e RateLimitExceededError = false /\
    isinstance e APIError = false.
Proof.
  apply (contract_breach_raises_ValidationError
           (fixtures.answering (fixtures.london_with [] fixtures.london_wind [("cod", VInt 200)]))
           fixtures.settings fixtures.client "London" None "metric" "en"
           (fixtures.ok_response
              (VDict (fixtures.london_with [] fixtures.london_wind [("cod", VInt 200)])))
           (fixtures.london_with [] fixtures.london_wind [("cod", VInt 200)]));
    try reflexivity.
  exists "visibility", pydantic.TInt. split.
  - simpl. tauto.
  - left. reflexivity.
Defined.

(** *** The dispatch on the provider's status *)

(** The string "404" and the integer 404 both dispatch to
    [LocationNotFoundError], whose text carries the provider's message. *)
Lemma not_found_in_both_forms w message :
  weather._handle_api_error w (VStr "404") message
  = Raise (plain LocationNotFoundError ("Location not found: " ++ str_of w message))
  /\ weather._handle_api_error w (VInt 404) message
     = Raise (plain LocationNotFoundError ("Location not found: " ++ str_of w message)).
Proof. split; reflexivity. Qed.


(** C2. The gate in front of the dispatch compares the status as it arrived:
    a payload whose [cod] is the string "200" is not taken as a success, it
    goes to the dispatch, which normalizes it and raises the generic
    [APIError] with status 200. *)
Theorem string_200_takes_failure_path :
  forall (w : World) (settings : config.Settings) (self : weather.WeatherClient)
         (city : string) (country_code : option string) (units lang : string)
         (response : requests.Response) (kvs : list (string * value)),
    session_get w (weather.base_url self)
      (weather.request_params self city country_code units lang)
      (config.REQUEST_TIMEOUT settings) = Ok response ->
    weather.raise_for_status response = Ok tt ->
    requests.body response = inl (VDict kvs) ->
    lookup "cod" kvs = Some (VStr "200") ->
    exists e,
      weather.get_weather_by_city w settings self city country_code units lang
      = Raise e /\
      exn_class e = APIError /\
      exn_status_code e = Some (VInt 200) /\
      exn_message e = Some (weather.dict_get kvs "message" (VStr "Unknown error")).
Proof.
  intros w settings self city country_code units lang response kvs
         Hanswered Hpassed Hdecoded Hcod.
  eexists. split.
  - apply (failure_path w settings self city country_code units lang response kvs
             Hanswered Hpassed Hdecoded).
    + unfold weather.dict_get. now rewrite Hcod.
    + unfold weather.dict_get at 1. rewrite Hcod. reflexivity.
  - repeat split.
Qed.

(** The full London payload, with its status spelled as a string. *)
Lemma string_200_witness :
  exists e,
    weather.get_weather_by_city
      (fixtures.answering
         (fixtures.london_with [("visibility", VInt 10000)] fixtures.london_wind
            [("cod", VStr "200")]))
      fixtures.settings fixtures.client "London" None "metric" "en" = Raise e /\
    exn_class e = APIError /\
    exn_status_code e = Some (VInt 200) /\
    exn_message e = Some (VStr "Unknown error").
Proof.
  apply (string_200_takes_failure_path
           (fixtures.answering
              (fixtures.london_with [("visibility", VInt 10000)] fixtures.london_wind
                 [("cod", VStr "200")]))
           fixtures.settings fixtures.client "London" None "metric" "en"
           (fixtures.ok_response
              (VDict (fixtures.london_with [("visibility", VInt 10000)]
                        fixtures.london_wind [("cod", VStr "200")])))
           (fixtures.london_with [("visibility", VInt 10000)] fixtures.london_wind
              [("cod", VStr "200")]));
    reflexivity.
Defined.

(** *** The command line on a failed call *)

Lemma get_reports_client_error w settings location country units output pretty
    c key city country_code e :
  cli.locate location country = Ok (city, country_code) ->
  weather.get_weather_by_city w settings
    (weather.WeatherClient_init settings (Some (String c key)) None)
    city country_code units "en" = Raise e ->
  cli.get w settings location country units output pretty (Some (String c key))
  = if isinstance e WeatherAppError then
      {| cli.exit_code := 1; cli.stdout := [];
         cli.stderr := ["Error: " ++ (if isinstance e InvalidAPIKeyError
                                      then cli.credential_message else exn_str e)];
         cli.files := [] |}
    else
      {| cli.exit_code := 1; cli.stdout := [];
         cli.stderr := ["Unexpected error: " ++ exn_str e]; cli.files := [] |}.
Proof.
  intros Hlocate Hcall. unfold cli.get. cbn [bind].
  rewrite Hlocate. cbn [bind fst snd]. rewrite Hcall. cbn [bind]. reflexivity.
Qed.

(** C1. A payload whose status is 401 reaches the branch that raises
    [InvalidAPIKeyError], but the class is called there with two arguments
    while its constructor takes one: the call raises [TypeError], which is
    not an [InvalidAPIKeyError] nor any error of the application, and the
    command line exits with status 1 under "Unexpected error", without the
    message about the credential. *)
Theorem invalid_credentials_dispatch_raises_TypeError :
  forall (w : World) (settings : config.Settings)
         (location : string) (country : option string) (units : string)
         (output : option string) (pretty : bool) (c : ascii) (key : string)
         (city : string) (country_code : option string)
         (response : requests.Response) (kvs : list (string * value)),
    cli.locate location country = Ok (city, country_code) ->
    session_get w
      (weather.base_url (weather.WeatherClient_init settings (Some (String c key)) None))
      (weather.request_params
         (weather.WeatherClient_init settings (Some (String c key)) None)
         city country_code units "en")
      (config.REQUEST_TIMEOUT settings) = Ok response ->
    weather.raise_for_status response = Ok tt ->
    requests.body response = inl (VDict kvs) ->
    lookup "cod" kvs = Some (VInt 401) ->
    weather.get_weather_by_city w settings
      (weather.WeatherClient_init settings (Some (String c key)) None)
      city country_code units "en"
    = Raise (exceptions.arity_error "InvalidAPIKeyError" 2 3) /\
    exn_class (exceptions.arity_error "InvalidAPIKeyError" 2 3) = TypeError /\
    isinstance (exceptions.arity_error "InvalidAPIKeyError" 2 3) InvalidAPIKeyError
    = false /\
    isinstance (exceptions.arity_error "InvalidAPIKeyError" 2 3) WeatherAppError
    = false /\
    cli.get w settings location country units output pretty (Some (String c key))
    = {| cli.exit_code := 1; cli.stdout := [];
         cli.stderr := ["Unexpected error: InvalidAPIKeyError.__init__() takes 2 positional arguments but 3 were given"];
         cli.files := [] |}.
Proof.
  intros w settings location country units output pretty c key city country_code
         response kvs Hlocate Hanswered Hpassed Hdecoded Hcod.
  set (self := weather.WeatherClient_init settings (Some (String c key)) None) in *.
  set (e := exceptions.arity_error "InvalidAPIKeyError" 2 3).
  assert (Hcall : weather.get_weather_by_city w settings self city country_code
                    units "en" = Raise e).
  { apply (failure_path w settings self city country_code units "en" response kvs
             Hanswered Hpassed Hdecoded).
    - unfold weather.dict_get. now rewrite Hcod.
    - unfold weather.dict_get at 1. rewrite Hcod. reflexivity. }
  split; [exact Hcall |]. repeat split.
  subst self.
  rewrite (get_reports_client_error w settings location country units output pretty
             c key city country_code e Hlocate Hcall).
  reflexivity.
Qed.

(** The payload of [test_get_weather_by_city_api_error]. *)
Lemma invalid_credentials_dispatch_witness :
  weather.get_weather_by_city
    (fixtures.answering [("cod", VInt 401); ("message", VStr "Invalid API key")])
    fixtures.settings
    (weather.WeatherClient_init fixtures.settings (Some "invalid_key") None)
    "London" None "metric" "en"
  = Raise (exceptions.arity_error "InvalidAPIKeyError" 2 3) /\
  exn_class (exceptions.arity_error "InvalidAPIKeyError" 2 3) = TypeError /\
  isinstance (exceptions.arity_error "InvalidAPIKeyError" 2 3) InvalidAPIKeyError = false /\
  isinstance (exceptions.arity_error "InvalidAPIKeyError" 2 3) WeatherAppError = false /\
  cli.get (fixtures.answering [("cod", VInt 401); ("message", VStr "Invalid API key")])
    fixtures.settings "London" None "metric" None true (Some "invalid_key")
  = {| cli.exit_code := 1; cli.stdout := [];
       cli.stderr := ["Unexpected error: InvalidAPIKeyError.__init__() takes 2 positional arguments but 3 were given"];
       cli.files := [] |}.
Proof.
  apply (invalid_credentials_dispatch_raises_TypeError
           (fixtures.answering [("cod", VInt 401); ("message", VStr "Invalid API key")])
           fixtures.settings "London" None "metric" None true
           "i"%char "nvalid_key" "London" None
           (fixtures.ok_response
              (VDict [("cod", VInt 401); ("message", VStr "Invalid API key")]))
           [("cod", VInt 401); ("message", VStr "Invalid API key")]);
    reflexivity.
Defined.

(** ** The formatter *)

Ltac bind_inversion H :=
  repeat (let a := fresh "a" in
          let Ha := fresh "Ha" in
          apply bind_Ok in H; destruct H as (a & Ha & H)).

(** What the formatter has read and written when it returns. *)
Lemma format_weather_data_Ok w weather_data units out :
  cli.format_weather_data w weather_data units = Ok out ->
  exists visibility wind speed rain snow text,
    getattr weather_data "visibility" = Ok visibility /\
    (if truthy visibility
     then (km <- cli.per_thousand visibility ;; Ok (Float.format_1f km ++ " km"))%py
     else Ok "N/A") = Ok text /\
    getattr weather_data "wind" = Ok wind /\
    getattr wind "speed" = Ok speed /\
    (if hasattr weather_data "rain" then getattr weather_data "rain" else Ok VNone)
    = Ok rain /\
    (if hasattr weather_data "snow" then getattr weather_data "snow" else Ok VNone)
    = Ok snow /\
    at_path ["weather"; "temperature"; "unit"] out
    = Some (VStr (if String.eqb units "metric" then "°C" else "°F")) /\
    at_path ["weather"; "wind"; "speed"] out
    = Some (VStr (str_of w speed ++ " "
                  ++ (if String.eqb units "metric" then "m/s" else "mph"))) /\
    at_path ["weather"; "visibility"] out = Some (VStr text) /\
    at_path ["weather"; "rain"] out = Some rain /\
    at_path ["weather"; "snow"] out = Some snow.
Proof.
  unfold cli.format_weather_data. intros H.
  bind_inversion H.
  inversion H; subst out; clear H.
  do 6 eexists.
  repeat (split; [eassumption |]).
  repeat split.
Qed.

(** A validated response is an object with the declared attributes, each
    required one holding the validated form of the input under its name. *)
Lemma validated_response w kvs obj :
  pydantic.construct w weather.WeatherResponse kvs = Ok obj ->
  exists attrs,
    obj = VObj "WeatherResponse" attrs /\
    pydantic.attributes_of w kvs weather.WeatherResponse_fields = (attrs, []) /\
    map fst attrs = pydantic.names weather.WeatherResponse_fields.
Proof.
  intros H. apply construct_Ok in H. destruct H as (attrs & -> & Hattrs).
  exists attrs. repeat split; [exact Hattrs |].
  pose proof (attributes_names w kvs weather.WeatherResponse_fields) as Hnames.
  rewrite Hattrs in Hnames. now apply Hnames.
Qed.

Lemma validated_attribute w kvs obj name ft :
  pydantic.construct w weather.WeatherResponse kvs = Ok obj ->
  pydantic.field_of name weather.WeatherResponse_fields = Some (ft, false) ->
  exists x v, lookup name kvs = Some x /\ pydantic.validate w ft x = inl v /\
              getattr obj name = Ok v.
Proof.
  intros H Hfield. apply validated_response in H.
  destruct H as (attrs & -> & Hattrs & _).
  pose proof (attributes_required w kvs weather.WeatherResponse_fields name ft) as Hreq.
  rewrite Hattrs in Hreq. destruct (Hreq eq_refl Hfield) as (x & v & Hx & Hv & Hattr).
  exists x, v. repeat split; try assumption.
  unfold getattr. cbn [fst] in Hattr. now rewrite Hattr.
Qed.

(** C8. For every validated response, whatever numbers it carries: when the
    formatter returns with units "metric" the temperature unit is "°C" and
    the wind speed reads "<speed> m/s"; with units "imperial" they are "°F"
    and "<speed> mph". *)
Theorem unit_labels_follow_units :
  forall (w : World) (kvs : list (string * value)) (obj : value)
         (units : string) (out : value),
    pydantic.construct w weather.WeatherResponse kvs = Ok obj ->
    cli.format_weather_data w obj units = Ok out ->
    exists wind speed,
      getattr obj "wind" = Ok wind /\ getattr wind "speed" = Ok speed /\
      (units = "metric" ->
       at_path ["weather"; "temperature"; "unit"] out = Some (VStr "°C") /\
       at_path ["weather"; "wind"; "speed"] out
       = Some (VStr (str_of w speed ++ " m/s"))) /\
      (units = "imperial" ->
       at_path ["weather"; "temperature"; "unit"] out = Some (VStr "°F") /\
       at_path ["weather"; "wind"; "speed"] out
       = Some (VStr (str_of w speed ++ " mph"))).
Proof.
  intros w kvs obj units out _ Hout.
  apply format_weather_data_Ok in Hout.
  destruct Hout as (visibility & wind & speed & rain & snow & text
                    & _ & _ & Hwind & Hspeed & _ & _ & Hunit & Hlabel & _).
  exists wind, speed. repeat split; try assumption;
    subst units; assumption.
Qed.

(** The London report in both systems of units. *)
Lemma unit_labels_witness :
  (exists wind speed,
     getattr (fixtures.report_of fixtures.london) "wind" = Ok wind /\
     getattr wind "speed" = Ok speed /\
     ("metric" = "metric" ->
      at_path ["weather"; "temperature"; "unit"]
        (fixtures.formatted fixtures.london "metric") = Some (VStr "°C") /\
      at_path ["weather"; "wind"; "speed"]
        (fixtures.formatted fixtures.london "metric")
      = Some (VStr (str_of (fixtures.answering fixtures.london) speed ++ " m/s"))) /\
     ("metric" = "imperial" ->
      at_path ["weather"; "temperature"; "unit"]
        (fixtures.formatted fixtures.london "metric") = Some (VStr "°F") /\
      at_path ["weather"; "wind"; "speed"]
        (fixtures.formatted fixtures.london "metric")
      = Some (VStr (str_of (fixtures.answering fixtures.london) speed ++ " mph")))) /\
  at_path ["weather"; "wind"; "speed"] (fixtures.formatted fixtures.london "imperial")
  = Some (VStr "3.6 mph").
Proof.
  split.
  - apply (unit_labels_follow_units (fixtures.answering fixtures.london)
             fixtures.london (fixtures.report_of fixtures.london) "metric"
             (fixtures.formatted fixtures.london "metric"));
      vm_compute; reflexivity.
  - vm_compute. reflexivity.
Defined.

(** *** Visibility *)

Lemma validate_int w x v :
  pydantic.validate w pydantic.TInt x = inl v ->
  exists n, lax_int w x = Some n /\ v = VInt n.
Proof.
  simpl. destruct (lax_int w x) as [n |]; [| discriminate].
  intros H. inversion H. eauto.
Qed.

Lemma per_thousand_int n km :
  cli.per_thousand (VInt n) = Ok km -> km = Float.div_Z n 1000.
Proof.
  unfold cli.per_thousand.
  destruct (Float.div_Z n 1000); intros H; inversion H; reflexivity.
Qed.

(** C5, as the code has it. Visibility is a required integer field: a
    validated report exists only for a payload that carries a visibility,
    and it stores that integer. The formatter renders it as the kilometres
    with one decimal, 10000 as "10.0 km", and as "N/A" when it is zero. *)
Theorem visibility_required_and_rendered :
  forall (w : World) (kvs : list (string * value)) (obj : value)
         (units : string) (out : value),
    pydantic.construct w weather.WeatherResponse kvs = Ok obj ->
    cli.format_weather_data w obj units = Ok out ->
    exists x n,
      lookup "visibility" kvs = Some x /\
      lax_int w x = Some n /\
      getattr obj "visibility" = Ok (VInt n) /\
      at_path ["weather"; "visibility"] out
      = Some (VStr (if (n =? 0)%Z then "N/A"
                    else Float.format_1f (Float.div_Z n 1000) ++ " km")) /\
      (n = 10000%Z -> at_path ["weather"; "visibility"] out = Some (VStr "10.0 km")) /\
      (n = 0%Z -> at_path ["weather"; "visibility"] out = Some (VStr "N/A")).
Proof.
  intros w kvs obj units out Hobj Hout.
  destruct (validated_attribute w kvs obj "visibility" pydantic.TInt Hobj eq_refl)
    as (x & v & Hx & Hv & Hattr).
  apply validate_int in Hv. destruct Hv as (n & Hn & ->).
  apply format_weather_data_Ok in Hout.
  destruct Hout as (visibility & wind & speed & rain & snow & text
                    & Hvis & Htext & _ & _ & _ & _ & _ & _ & Hfield & _).
  rewrite Hattr in Hvis. inversion Hvis; subst visibility; clear Hvis.
  assert (Hrendered : text = if (n =? 0)%Z then "N/A"
                             else Float.format_1f (Float.div_Z n 1000) ++ " km").
  { revert Htext. cbn [truthy]. destruct (n =? 0)%Z; cbn [negb].
    - intros H. now inversion H.
    - intros H. apply bind_Ok in H. destruct H as (km & Hkm & H).
      apply per_thousand_int in Hkm. subst km. now inversion H. }
  exists x, n. repeat split; try assumption.
  - now rewrite Hfield, Hrendered.
  - intros ->. now rewrite Hfield, Hrendered.
  - intros ->. now rewrite Hfield, Hrendered.
Qed.

(** London at ten kilometres. *)
Lemma visibility_witness :
  exists x n,
    lookup "visibility" fixtures.london = Some x /\
    lax_int (fixtures.answering fixtures.london) x = Some n /\
    getattr (fixtures.report_of fixtures.london) "visibility" = Ok (VInt n) /\
    at_path ["weather"; "visibility"] (fixtures.formatted fixtures.london "metric")
    = Some (VStr (if (n =? 0)%Z then "N/A"
                  else Float.format_1f (Float.div_Z n 1000) ++ " km")) /\
    (n = 10000%Z ->
     at_path ["weather"; "visibility"] (fixtures.formatted fixtures.london "metric")
     = Some (VStr "10.0 km")) /\
    (n = 0%Z ->
     at_path ["weather"; "visibility"] (fixtures.formatted fixtures.london "metric")
     = Some (VStr "N/A")).
Proof.
  apply (visibility_required_and_rendered (fixtures.answering fixtures.london)
           fixtures.london (fixtures.report_of fixtures.london) "metric"
           (fixtures.formatted fixtures.london "metric"));
    vm_compute; reflexivity.
Defined.

(** The spec's reading fails: no payload without a visibility validates,
    the London payload without it is rejected for that one reason. *)
Lemma visibility_is_not_optional :
  (exists e,
     pydantic.construct (fixtures.answering fixtures.london_no_visibility)
       weather.WeatherResponse fixtures.london_no_visibility = Raise e /\
     exn_class e = ValidationError /\
     exn_errors e = [([Key "visibility"], missing)]) /\
  ~ (exists w kvs obj,
       lookup "visibility" kvs = None /\
       pydantic.construct w weather.WeatherResponse kvs = Ok obj).
Proof.
  split.
  - eexists. split; [vm_compute; reflexivity |]. split; reflexivity.
  - intros (w & kvs & obj & Hnone & Hobj).
    destruct (validated_attribute w kvs obj "visibility" pydantic.TInt Hobj eq_refl)
      as (x & v & Hx & _).
    congruence.
Qed.

(** The branch of the formatter for a null visibility: it is there, for an
    object built without validation. *)
Lemma null_visibility_renders_NA w weather_data units out :
  getattr weather_data "visibility" = Ok VNone ->
  cli.format_weather_data w weather_data units = Ok out ->
  at_path ["weather"; "visibility"] out = Some (VStr "N/A").
Proof.
  intros Hnull Hout. apply format_weather_data_Ok in Hout.
  destruct Hout as (visibility & wind & speed & rain & snow & text
                    & Hvis & Htext & _ & _ & _ & _ & _ & _ & Hfield & _).
  rewrite Hnull in Hvis. inversion Hvis; subst visibility.
  cbn [truthy] in Htext. inversion Htext; subst text. exact Hfield.
Qed.

(** *** Wind *)

Lemma validate_model_dict w cls fs kvs v :
  pydantic.validate w (pydantic.TModel cls fs) (VDict kvs) = inl v ->
  exists attrs, v = VObj cls attrs /\ pydantic.attributes_of w kvs fs = (attrs, []).
Proof.
  rewrite validate_model.
  destruct (pydantic.attributes_of w kvs fs) as [attrs [| e errs]]; [| discriminate].
  intros H. inversion H. eauto.
Qed.

(** C6, as the code has it. The direction of the wind is a required integer
    field: a payload whose wind object omits [deg] fails construction with a
    validation error that reports [wind.deg] as missing. Only the gust is
    optional: when the wind object omits [gust], a report that validates
    records it as [None]. *)
Theorem wind_deg_required_gust_optional :
  forall (w : World) (kvs wind_kvs : list (string * value)),
    lookup "wind" kvs = Some (VDict wind_kvs) ->
    (lookup "deg" wind_kvs = None ->
     exists e,
       pydantic.construct w weather.WeatherResponse kvs = Raise e /\
       exn_class e = ValidationError /\
       In ([Key "wind"; Key "deg"], missing) (exn_errors e)) /\
    (lookup "gust" wind_kvs = None ->
     forall obj,
       pydantic.construct w weather.WeatherResponse kvs = Ok obj ->
       exists wind deg,
         getattr obj "wind" = Ok wind /\
         getattr wind "deg" = Ok (VInt deg) /\
         getattr wind "gust" = Ok VNone).
Proof.
  intros w kvs wind_kvs Hwind. split.
  - intros Hdeg.
    pose proof (attributes_missing w wind_kvs
                  [("speed", pydantic.TFloat, weather.required);
                   ("deg", pydantic.TInt, weather.required);
                   ("gust", pydantic.TFloat, weather.optional)]
                  "deg" pydantic.TInt (or_intror (or_introl eq_refl)) Hdeg) as Hmissing.
    pose proof (validate_model w "WindData"
                  [("speed", pydantic.TFloat, weather.required);
                   ("deg", pydantic.TInt, weather.required);
                   ("gust", pydantic.TFloat, weather.optional)] wind_kvs) as Hvalidate.
    destruct (pydantic.attributes_of w wind_kvs _) as [attrs [| e0 errs]] eqn:Hattrs;
      [destruct Hmissing |].
    cbn [snd] in Hmissing.
    assert (Hin : In ("wind", weather.WindData, weather.required)
                     weather.WeatherResponse_fields) by (simpl; tauto).
    pose proof (attributes_invalid w kvs weather.WeatherResponse_fields "wind"
                  weather.WindData (VDict wind_kvs) (e0 :: errs)
                  ([Key "deg"], missing) Hin Hwind Hvalidate Hmissing) as Hreport.
    cbn [fst snd] in Hreport.
    assert (Hne : snd (pydantic.attributes_of w kvs weather.WeatherResponse_fields) <> []).
    { intros Hnil. rewrite Hnil in Hreport. destruct Hreport. }
    destruct (construct_Raise w "WeatherResponse" weather.WeatherResponse_fields kvs Hne)
      as (e & He & Hclass & Herrs).
    exists e. repeat split; try assumption. now rewrite Herrs.
  - intros Hgust obj Hobj.
    destruct (validated_attribute w kvs obj "wind" weather.WindData Hobj eq_refl)
      as (x & wind & Hx & Hv & Hattr).
    rewrite Hwind in Hx. inversion Hx; subst x; clear Hx.
    apply validate_model_dict in Hv. destruct Hv as (attrs & -> & Hattrs).
    pose proof (attributes_required w wind_kvs
                  [("speed", pydantic.TFloat, weather.required);
                   ("deg", pydantic.TInt, weather.required);
                   ("gust", pydantic.TFloat, weather.optional)] "deg" pydantic.TInt) as Hdeg.
    pose proof (attributes_defaulted w wind_kvs
                  [("speed", pydantic.TFloat, weather.required);
                   ("deg", pydantic.TInt, weather.required);
                   ("gust", pydantic.TFloat, weather.optional)] "gust" pydantic.TFloat) as Hdef.
    rewrite Hattrs in Hdeg, Hdef. cbn [fst snd] in Hdeg, Hdef.
    destruct (Hdeg eq_refl eq_refl) as (x & v & _ & Hv & Hlookup).
    apply validate_int in Hv. destruct Hv as (deg & _ & ->).
    exists (VObj "WindData" attrs), deg. split; [exact Hattr |].
    unfold getattr. rewrite Hlookup, (Hdef eq_refl eq_refl Hgust). auto.
Qed.

(** London without the direction of its wind, and London as it is. *)
Lemma wind_deg_required_witness :
  (exists e,
     pydantic.construct (fixtures.answering fixtures.london_no_deg)
       weather.WeatherResponse fixtures.london_no_deg = Raise e /\
     exn_class e = ValidationError /\
     In ([Key "wind"; Key "deg"], missing) (exn_errors e)) /\
  (exists wind deg,
     getattr (fixtures.report_of fixtures.london) "wind" = Ok wind /\
     getattr wind "deg" = Ok (VInt deg) /\
     getattr wind "gust" = Ok VNone).
Proof.
  split.
  - apply (wind_deg_required_gust_optional (fixtures.answering fixtures.london_no_deg)
             fixtures.london_no_deg [("speed", fixtures.decimal 36 10)]);
      reflexivity.
  - apply (wind_deg_required_gust_optional (fixtures.answering fixtures.london)
             fixtures.london fixtures.london_wind); reflexivity.
Defined.

(** The spec's reading fails: no payload whose wind object omits the
    direction validates, and London without it is rejected for that one
    reason. *)
Lemma wind_deg_is_not_optional :
  (exists e,
     pydantic.construct (fixtures.answering fixtures.london_no_deg)
       weather.WeatherResponse fixtures.london_no_deg = Raise e /\
     exn_class e = ValidationError /\
     exn_errors e = [([Key "wind"; Key "deg"], missing)]) /\
  ~ (exists w kvs wind_kvs obj,
       lookup "wind" kvs = Some (VDict wind_kvs) /\
       lookup "deg" wind_kvs = None /\
       pydantic.construct w weather.WeatherResponse kvs = Ok obj).
Proof.
  split.
  - eexists. split; [vm_compute; reflexivity |]. split; reflexivity.
  - intros (w & kvs & wind_kvs & obj & Hwind & Hdeg & Hobj).
    destruct (validated_attribute w kvs obj "wind" weather.WindData Hobj eq_refl)
      as (x & wind & Hx & Hv & _).
    rewrite Hwind in Hx. inversion Hx; subst x; clear Hx.
    apply validate_model_dict in Hv. destruct Hv as (attrs & _ & Hattrs).
    pose proof (attributes_missing w wind_kvs
                  [("speed", pydantic.TFloat, weather.required);
                   ("deg", pydantic.TInt, weather.required);
                   ("gust", pydantic.TFloat, weather.optional)]
                  "deg" pydantic.TInt (or_intror (or_introl eq_refl)) Hdeg) as Hmissing.
    rewrite Hattrs in Hmissing. destruct Hmissing.
Qed.

(** *** Precipitation *)

(** C7. The response model declares neither [rain] nor [snow], so a
    validated report has no such attribute whatever the payload carried,
    and the formatter's [rain] and [snow] are always [None]. *)
Theorem precipitation_is_dropped :
  forall (w : World) (kvs : list (string * value)) (obj : value)
         (units : string) (out : value),
    pydantic.construct w weather.WeatherResponse kvs = Ok obj ->
    cli.format_weather_data w obj units = Ok out ->
    hasattr obj "rain" = false /\ hasattr obj "snow" = false /\
    at_path ["weather"; "rain"] out = Some VNone /\
    at_path ["weather"; "snow"] out = Some VNone.
Proof.
  intros w kvs obj units out Hobj Hout.
  apply validated_response in Hobj. destruct Hobj as (attrs & -> & _ & Hnames).
  assert (Hrain : hasattr (VObj "WeatherResponse" attrs) "rain" = false).
  { unfold hasattr, getattr. rewrite lookup_absent; [reflexivity |].
    rewrite Hnames. simpl. intuition discriminate. }
  assert (Hsnow : hasattr (VObj "WeatherResponse" attrs) "snow" = false).
  { unfold hasattr, getattr. rewrite lookup_absent; [reflexivity |].
    rewrite Hnames. simpl. intuition discriminate. }
  apply format_weather_data_Ok in Hout.
  destruct Hout as (visibility & wind & speed & rain & snow & text
                    & _ & _ & _ & _ & Hr & Hs & _ & _ & _ & Hfr & Hfs).
  rewrite Hrain in Hr. rewrite Hsnow in Hs.
  inversion Hr; inversion Hs; subst. auto.
Qed.

(** London under rain: the payload says half a millimetre in the last
    hour, the report says nothing. *)
Lemma precipitation_witness :
  lookup "rain" fixtures.london_rain = Some (VDict [("1h", fixtures.decimal 5 10)]) /\
  hasattr (fixtures.report_of fixtures.london_rain) "rain" = false /\
  hasattr (fixtures.report_of fixtures.london_rain) "snow" = false /\
  at_path ["weather"; "rain"] (fixtures.formatted fixtures.london_rain "metric")
  = Some VNone /\
  at_path ["weather"; "snow"] (fixtures.formatted fixtures.london_rain "metric")
  = Some VNone.
Proof.
  split; [reflexivity |].
  apply (precipitation_is_dropped (fixtures.answering fixtures.london_rain)
           fixtures.london_rain (fixtures.report_of fixtures.london_rain) "metric"
           (fixtures.formatted fixtures.london_rain "metric"));
    vm_compute; reflexivity.
Defined.

(** ** The location *)

Lemma contains_separator sep a rest :
  Str.contains sep (a ++ String sep rest) = true.
Proof.
  induction a as [| c a IH]; simpl.
  - now rewrite Ascii.eqb_refl.
  - rewrite IH. apply orb_true_r.
Qed.

Lemma split_nonempty sep s : Str.split sep s <> [].
Proof.
  destruct s as [| c s]; simpl; [discriminate |].
  destruct (Ascii.eqb c sep); [discriminate |].
  destruct (Str.split sep s); discriminate.
Qed.

(** A segment free of the separator is the first that [split] returns. *)
Lemma split_first sep a rest :
  Str.contains sep a = false ->
  Str.split sep (a ++ String sep rest) = a :: Str.split sep rest.
Proof.
  induction a as [| c a IH]; simpl.
  - intros _. now rewrite Ascii.eqb_refl.
  - intros H. apply orb_false_iff in H. destruct H as [Hc Ha].
    rewrite Hc, (IH Ha). reflexivity.
Qed.

Lemma split_whole sep a :
  Str.contains sep a = false -> Str.split sep a = [a].
Proof.
  induction a as [| c a IH]; simpl; [reflexivity |].
  intros H. apply orb_false_iff in H. destruct H as [Hc Ha].
  rewrite Hc, (IH Ha). reflexivity.
Qed.

Lemma append_empty (s : string) : s ++ "" = s.
Proof.
  induction s as [| c s IH]; simpl; [reflexivity | now rewrite IH].
Qed.

(** Without a comma the location is the city and the option stands. *)
Lemma locate_plain location country :
  Str.contains "," location = false ->
  cli.locate location country = Ok (location, country).
Proof.
  intros H. unfold cli.locate. now rewrite H.
Qed.

(** C10. When the location has a comma, the city is the first segment and
    the country code is the second, both stripped of surrounding
    whitespace, whatever the option [--country] says and whatever segments
    follow the second. *)
Theorem location_overrides_country_option :
  forall (a b : string) (more : option string) (country : option string),
    Str.contains "," a = false ->
    Str.contains "," b = false ->
    cli.locate
      (a ++ "," ++ b ++ match more with Some r => "," ++ r | None => "" end)
      country
    = Ok (Str.strip a, Some (Str.strip b)).
Proof.
  intros a b more country Ha Hb.
  unfold cli.locate.
  change (a ++ "," ++ b ++ match more with Some r => "," ++ r | None => "" end)
    with (a ++ String "," (b ++ match more with
                                | Some r => String "," r
                                | None => ""
                                end)).
  rewrite contains_separator, (split_first "," a _ Ha).
  assert (Hsplit : exists others,
            Str.split "," (b ++ match more with
                                | Some r => String "," r
                                | None => ""
                                end) = b :: others).
  { destruct more as [r |].
    - exists (Str.split "," r). now apply split_first.
    - exists []. rewrite append_empty. now apply split_whole. }
  destruct Hsplit as (others & ->).
  cbn [map List.length cli.item nth_error bind].
  replace (1 <? Z.of_nat (S (S (List.length (map Str.strip others)))))%Z with true
    by (symmetry; apply Z.ltb_lt; lia).
  reflexivity.
Qed.

(** A location with three segments and spaces, against [--country gb]: the
    client is asked for London in "uk". *)
Lemma location_overrides_witness :
  cli.locate "London, uk ,x" (Some "gb") = Ok ("London", Some "uk") /\
  cli.stderr (cli.get fixtures.unreachable fixtures.settings "London, uk ,x"
                (Some "gb") "metric" None true (Some "test_key"))
  = ["Error: API Error 500: no route to host for q=London,uk"].
Proof.
  split.
  - apply (location_overrides_country_option "London" " uk " (Some "x") (Some "gb"));
      reflexivity.
  - reflexivity.
Defined.

(** ** The query term *)

(** C9. The query term of the request is "<city>,<country_code>" for a
    country code (a non-empty string) and the city alone without one; the
    session is called with it. The location "London,uk" gives the city
    "London" and the country "uk", hence the term "London,uk"; "London"
    with no option gives the term "London". *)
Theorem query_term_of_city_and_country :
  forall (settings : config.Settings) (self : weather.WeatherClient)
         (city units lang : string) (c : ascii) (cc : string),
    lookup "q" (weather.request_params self city (Some (String c cc)) units lang)
    = Some (VStr (city ++ "," ++ String c cc)) /\
    lookup "q" (weather.request_params self city None units lang)
    = Some (VStr city) /\
    (exists e,
       weather.get_weather_by_city fixtures.unreachable settings self city
         (Some (String c cc)) units lang = Raise e /\
       exn_message e
       = Some (VStr ("no route to host for q=" ++ city ++ "," ++ String c cc))) /\
    (exists e,
       weather.get_weather_by_city fixtures.unreachable settings self city
         None units lang = Raise e /\
       exn_message e = Some (VStr ("no route to host for q=" ++ city))) /\
    cli.locate "London,uk" None = Ok ("London", Some "uk") /\
    cli.locate "London" None = Ok ("London", None) /\
    cli.stderr (cli.get fixtures.unreachable settings "London,uk" None units None
                  true (Some "test_key"))
    = ["Error: API Error 500: no route to host for q=London,uk"] /\
    cli.stderr (cli.get fixtures.unreachable settings "London" None units None
                  true (Some "test_key"))
    = ["Error: API Error 500: no route to host for q=London"].
Proof.
  intros settings self city units lang c cc.
  repeat split; try reflexivity.
  - eexists. split; reflexivity.
  - eexists. split; reflexivity.
Qed.

(** ** The formatter returns *)

(** The first item of a list that validates is the validated first item
    of the input. *)
Lemma validate_list_cons w t x xs v :
  pydantic.validate w (pydantic.TList t) (VList (x :: xs)) = inl v ->
  exists x' vs, v = VList (x' :: vs) /\ pydantic.validate w t x = inl x'.
Proof.
  simpl.
  match goal with
  | |- context [?f xs 1%nat] => destruct (f xs 1%nat) as [vs errs]
  end.
  destruct (pydantic.validate w t x) as [x' | es] eqn:E.
  - destruct errs; [| discriminate]. intros H. inversion H. eauto.
  - apply validate_errors_nonempty in E.
    destruct es as [| e es]; [congruence |]. discriminate.
Qed.

Lemma model_attribute w cls fs kvs v name ft :
  pydantic.validate w (pydantic.TModel cls fs) (VDict kvs) = inl v ->
  pydantic.field_of name fs = Some (ft, false) ->
  exists x a, lookup name kvs = Some x /\ pydantic.validate w ft x = inl a /\
              getattr v name = Ok a.
Proof.
  intros Hv Hfield. apply validate_model_dict in Hv.
  destruct Hv as (attrs & -> & Hattrs).
  pose proof (attributes_required w kvs fs name ft) as Hreq.
  rewrite Hattrs in Hreq. destruct (Hreq eq_refl Hfield) as (x & a & Hx & Ha & Hattr).
  exists x, a. repeat split; try assumption.
  unfold getattr. cbn [fst] in Hattr. now rewrite Hattr.
Qed.

Lemma hasattr_of_getattr o name v : getattr o name = Ok v -> hasattr o name = true.
Proof. unfold hasattr. now intros ->. Qed.

(** The formatter returns for every validated response whose payload is
    what the provider sends: JSON objects for the nested models, at least
    one weather condition, both coordinates, a visibility whose kilometres
    fit a float, and timestamps the clock converts. It raises for a
    validated response with an empty list of conditions ([IndexError]) or
    without a coordinate ([KeyError]). *)
Lemma format_weather_data_returns :
  forall (w : World) (kvs : list (string * value)) (obj : value) (units : string)
         (condition sys_kvs main_kvs wind_kvs clouds_kvs : list (string * value))
         (conditions : list value) (coord lat lon : value),
    pydantic.construct w weather.WeatherResponse kvs = Ok obj ->
    lookup "weather" kvs = Some (VList (VDict condition :: conditions)) ->
    lookup "sys" kvs = Some (VDict sys_kvs) ->
    lookup "main" kvs = Some (VDict main_kvs) ->
    lookup "wind" kvs = Some (VDict wind_kvs) ->
    lookup "clouds" kvs = Some (VDict clouds_kvs) ->
    getattr obj "coord" = Ok coord ->
    cli.getitem coord "lat" = Ok lat ->
    cli.getitem coord "lon" = Ok lon ->
    (forall n sign, getattr obj "visibility" = Ok (VInt n) ->
                    Float.div_Z n 1000 <> S754_infinity sign) ->
    (forall t, exists s, fromtimestamp_isoformat w t = Ok s) ->
    exists out, cli.format_weather_data w obj units = Ok out.
Proof.
  intros w kvs obj units condition sys_kvs main_kvs wind_kvs clouds_kvs conditions
         coord lat lon Hobj Hweather Hsys Hmain Hwind Hclouds Hcoord Hlat Hlon
         Hfinite Hclock.
  destruct (validated_attribute w kvs obj "name" pydantic.TStr Hobj eq_refl)
    as (? & name & _ & _ & Hname).
  destruct (validated_attribute w kvs obj "sys" weather.SystemData Hobj eq_refl)
    as (xsys & sys & Hx & Hvsys & Hgsys).
  rewrite Hsys in Hx; inversion Hx; subst xsys; clear Hx.
  destruct (model_attribute w _ _ _ _ "country" pydantic.TStr Hvsys eq_refl)
    as (? & country & _ & _ & Hcountry).
  destruct (model_attribute w _ _ _ _ "sunrise" pydantic.TInt Hvsys eq_refl)
    as (? & sunrise & _ & Hvsunrise & Hsunrise).
  destruct (model_attribute w _ _ _ _ "sunset" pydantic.TInt Hvsys eq_refl)
    as (? & sunset & _ & Hvsunset & Hsunset).
  apply validate_int in Hvsunrise. destruct Hvsunrise as (t1 & _ & ->).
  apply validate_int in Hvsunset. destruct Hvsunset as (t2 & _ & ->).
  destruct (validated_attribute w kvs obj "weather" (pydantic.TList weather.WeatherCondition)
              Hobj eq_refl) as (xws & ws & Hx & Hvws & Hgws).
  rewrite Hweather in Hx; inversion Hx; subst xws; clear Hx.
  apply validate_list_cons in Hvws. destruct Hvws as (c & vs & -> & Hvc).
  destruct (model_attribute w _ _ _ _ "main" pydantic.TStr Hvc eq_refl)
    as (? & cmain & _ & _ & Hcmain).
  destruct (model_attribute w _ _ _ _ "description" pydantic.TStr Hvc eq_refl)
    as (? & cdesc & _ & _ & Hcdesc).
  destruct (model_attribute w _ _ _ _ "icon" pydantic.TStr Hvc eq_refl)
    as (? & cicon & _ & _ & Hcicon).
  destruct (validated_attribute w kvs obj "main" weather.MainWeatherData Hobj eq_refl)
    as (xmain & main & Hx & Hvmain & Hgmain).
  rewrite Hmain in Hx; inversion Hx; subst xmain; clear Hx.
  destruct (model_attribute w _ _ _ _ "temp" pydantic.TFloat Hvmain eq_refl)
    as (? & temp & _ & _ & Htemp).
  destruct (model_attribute w _ _ _ _ "feels_like" pydantic.TFloat Hvmain eq_refl)
    as (? & feels & _ & _ & Hfeels).
  destruct (model_attribute w _ _ _ _ "temp_min" pydantic.TFloat Hvmain eq_refl)
    as (? & tmin & _ & _ & Htmin).
  destruct (model_attribute w _ _ _ _ "temp_max" pydantic.TFloat Hvmain eq_refl)
    as (? & tmax & _ & _ & Htmax).
  destruct (model_attribute w _ _ _ _ "pressure" pydantic.TInt Hvmain eq_refl)
    as (? & pressure & _ & _ & Hpressure).
  destruct (model_attribute w _ _ _ _ "humidity" pydantic.TInt Hvmain eq_refl)
    as (? & humidity & _ & _ & Hhumidity).
  destruct (validated_attribute w kvs obj "visibility" pydantic.TInt Hobj eq_refl)
    as (? & vis & _ & Hvvis & Hgvis).
  apply validate_int in Hvvis. destruct Hvvis as (n & _ & ->).
  destruct (validated_attribute w kvs obj "wind" weather.WindData Hobj eq_refl)
    as (xwind & wind & Hx & Hvwind & Hgwind).
  rewrite Hwind in Hx; inversion Hx; subst xwind; clear Hx.
  destruct (model_attribute w _ _ _ _ "speed" pydantic.TFloat Hvwind eq_refl)
    as (? & speed & _ & _ & Hspeed).
  destruct (validated_attribute w kvs obj "clouds" weather.CloudData Hobj eq_refl)
    as (xclouds & clouds & Hx & Hvclouds & Hgclouds).
  rewrite Hclouds in Hx; inversion Hx; subst xclouds; clear Hx.
  destruct (model_attribute w _ _ _ _ "all" pydantic.TInt Hvclouds eq_refl)
    as (? & all & _ & _ & Hall).
  destruct (Hclock t1) as (s1 & Hs1). destruct (Hclock t2) as (s2 & Hs2).
  unfold cli.format_weather_data.
  rewrite Hname, Hgsys; cbn [bind]. rewrite Hcountry, Hcoord; cbn [bind].
  rewrite Hlat, Hlon, Hgws; cbn [bind cli.first].
  rewrite Hcmain, Hcdesc, Hcicon, Hgmain; cbn [bind].
  rewrite Htemp, Hfeels, Htmin, Htmax, Hpressure, Hhumidity, Hgvis; cbn [bind].
  assert (Hvistext : exists text,
            (if truthy (VInt n)
             then (km <- cli.per_thousand (VInt n) ;; Ok (Float.format_1f km ++ " km"))%py
             else Ok "N/A") = Ok text).
  { destruct (truthy (VInt n)); [| eauto].
    unfold cli.per_thousand.
    pose proof (fun sign => Hfinite n sign Hgvis) as Hkm.
    destruct (Float.div_Z n 1000) as [| sign | |]; cbn [bind]; eauto.
    now destruct (Hkm sign). }
  destruct Hvistext as (text & ->). cbn [bind].
  rewrite Hgwind; cbn [bind]. rewrite Hspeed; cbn [bind].
  destruct (if hasattr wind "deg" then getattr wind "deg" else Ok VNone) as [deg | e] eqn:Hdeg.
  2:{ exfalso. unfold hasattr in Hdeg. destruct (getattr wind "deg"); discriminate. }
  destruct (if hasattr wind "gust" then getattr wind "gust" else Ok VNone) as [gust | e] eqn:Hgust.
  2:{ exfalso. unfold hasattr in Hgust. destruct (getattr wind "gust"); discriminate. }
  cbn [bind].
  rewrite (hasattr_of_getattr _ _ _ Hgclouds), Hgclouds; cbn [bind].
  rewrite Hall; cbn [bind].
  destruct (if hasattr obj "rain" then getattr obj "rain" else Ok VNone) as [rain | e] eqn:Hrain.
  2:{ exfalso. unfold hasattr in Hrain. destruct (getattr obj "rain"); discriminate. }
  destruct (if hasattr obj "snow" then getattr obj "snow" else Ok VNone) as [snow | e] eqn:Hsnow.
  2:{ exfalso. unfold hasattr in Hsnow. destruct (getattr obj "snow"); discriminate. }
  cbn [bind].
  rewrite Hsunrise; cbn [bind cli.isoformat]. rewrite Hs1; cbn [bind].
  rewrite Hsunset; cbn [bind cli.isoformat]. rewrite Hs2; cbn [bind].
  destruct (if hasattr obj "timezone" then getattr obj "timezone" else Ok VNone) as [tz | e] eqn:Htz.
  2:{ exfalso. unfold hasattr in Htz. destruct (getattr obj "timezone"); discriminate. }
  cbn [bind]. eauto.
Qed.

(** London is such a response. *)
Example london_is_formatted :
  exists out,
    cli.format_weather_data (fixtures.answering fixtures.london)
      (fixtures.report_of fixtures.london) "imperial" = Ok out /\
    at_path ["weather"; "temperature"; "unit"] out = Some (VStr "°F").
Proof.
  eexists. split; vm_compute; reflexivity.
Qed.

(** A response with no weather condition validates and cannot be
    formatted. *)
Example no_condition_is_not_formatted :
  exists obj e,
    pydantic.construct (fixtures.answering []) weather.WeatherResponse
      (("weather", VList []) :: fixtures.london) = Ok obj /\
    cli.format_weather_data (fixtures.answering []) obj "metric" = Raise e /\
    exn_class e = IndexError.
Proof.
  do 2 eexists. split; [vm_compute; reflexivity |].
  split; vm_compute; reflexivity.
Qed.

(** * Further properties of the code *)

(** ** The dispatch, code by code *)



(** ** exceptions.py *)

(** An [InvalidAPIKeyError] cannot carry another status than 401: the class
    builds an exception from one argument only, the message, and the
    exception says "API Error 401: <message>". *)
Theorem invalid_api_key_error_carries_401 :
  forall (w : World) (args : list value) (e : exn),
    exceptions.new w InvalidAPIKeyError args = Ok e ->
    exists message,
      args = [message] /\
      exn_class e = InvalidAPIKeyError /\
      exn_status_code e = Some (VInt 401) /\
      exn_message e = Some message /\
      exn_str e = "API Error 401: " ++ str_of w message /\
      isinstance e APIError = true.
Proof.
  intros w args e. cbn [exceptions.new]. unfold exceptions.InvalidAPIKeyError_init.
  destruct args as [| message [| second rest]]; try discriminate.
  cbn. intros H. inversion H. exists message. repeat split.
Qed.

(** The exception the command line raises for a missing key. *)
Lemma invalid_api_key_error_witness :
  exists message,
    [VStr "API key is required"] = [message] /\
    exn_class {| exn_class := InvalidAPIKeyError;
                 exn_str := "API Error 401: API key is required";
                 exn_status_code := Some (VInt 401);
                 exn_message := Some (VStr "API key is required");
                 exn_response := None; exn_errors := [] |} = InvalidAPIKeyError /\
    exn_status_code {| exn_class := InvalidAPIKeyError;
                 exn_str := "API Error 401: API key is required";
                 exn_status_code := Some (VInt 401);
                 exn_message := Some (VStr "API key is required");
                 exn_response := None; exn_errors := [] |} = Some (VInt 401) /\
    exn_message {| exn_class := InvalidAPIKeyError;
                 exn_str := "API Error 401: API key is required";
                 exn_status_code := Some (VInt 401);
                 exn_message := Some (VStr "API key is required");
                 exn_response := None; exn_errors := [] |} = Some message /\
    exn_str {| exn_class := InvalidAPIKeyError;
                 exn_str := "API Error 401: API key is required";
                 exn_status_code := Some (VInt 401);
                 exn_message := Some (VStr "API key is required");
                 exn_response := None; exn_errors := [] |}
    = "API Error 401: " ++ str_of (fixtures.answering []) message /\
    isinstance {| exn_class := InvalidAPIKeyError;
                 exn_str := "API Error 401: API key is required";
                 exn_status_code := Some (VInt 401);
                 exn_message := Some (VStr "API key is required");
                 exn_response := None; exn_errors := [] |} APIError = true.
Proof.
  apply (invalid_api_key_error_carries_401 (fixtures.answering [])
           [VStr "API key is required"]).
  reflexivity.
Defined.

(** ** Payloads the gate does not expect *)

(** A payload without a status is a failure, even when everything else of
    a report is there: the dispatch is entered with the default code 500
    and raises the generic [APIError] with the provider's message, or
    "Unknown error" without one. *)
Theorem payload_without_status_is_error_500 :
  forall (w : World) (settings : config.Settings) (self : weather.WeatherClient)
         (city : string) (country_code : option string) (units lang : string)
         (response : requests.Response) (kvs : list (string * value)),
    session_get w (weather.base_url self)
      (weather.request_params self city country_code units lang)
      (config.REQUEST_TIMEOUT settings) = Ok response ->
    weather.raise_for_status response = Ok tt ->
    requests.body response = inl (VDict kvs) ->
    lookup "cod" kvs = None ->
    exists e,
      weather.get_weather_by_city w settings self city country_code units lang
      = Raise e /\
      exn_class e = APIError /\
      exn_status_code e = Some (VInt 500) /\
      exn_message e = Some (weather.dict_get kvs "message" (VStr "Unknown error")) /\
      exn_str e = "API Error 500: "
                  ++ str_of w (weather.dict_get kvs "message" (VStr "Unknown error")).
Proof.
  intros w settings self city country_code units lang response kvs
         Hanswered Hpassed Hdecoded Hcod.
  eexists. split.
  - apply (failure_path w settings self city country_code units lang response kvs
             Hanswered Hpassed Hdecoded).
    + unfold weather.dict_get. now rewrite Hcod.
    + unfold weather.dict_get at 1. rewrite Hcod. reflexivity.
  - repeat split.
Qed.

(** London, complete but for its status. *)
Lemma payload_without_status_witness :
  exists e,
    weather.get_weather_by_city
      (fixtures.answering
         (fixtures.london_with [("visibility", VInt 10000)] fixtures.london_wind []))
      fixtures.settings fixtures.client "London" None "metric" "en" = Raise e /\
    exn_class e = APIError /\
    exn_status_code e = Some (VInt 500) /\
    exn_message e = Some (VStr "Unknown error") /\
    exn_str e = "API Error 500: Unknown error".
Proof.
  apply (payload_without_status_is_error_500
           (fixtures.answering
              (fixtures.london_with [("visibility", VInt 10000)] fixtures.london_wind []))
           fixtures.settings fixtures.client "London" None "metric" "en"
           (fixtures.ok_response
              (VDict (fixtures.london_with [("visibility", VInt 10000)]
                        fixtures.london_wind [])))
           (fixtures.london_with [("visibility", VInt 10000)] fixtures.london_wind []));
    reflexivity.
Defined.



(** ** Where a location error can come from *)




(** ** The command line *)

(** Without a key, by option or environment ([None]) or empty, the command
    exits with status 1 and the message about the credential, whatever the
    session would have answered: no request is made. *)
Theorem missing_api_key_stops_the_command :
  forall (w : World) (settings : config.Settings)
         (location : string) (country : option string) (units : string)
         (output : option string) (pretty : bool) (api_key : option string),
    api_key = None \/ api_key = Some "" ->
    cli.get w settings location country units output pretty api_key
    = {| cli.exit_code := 1; cli.stdout := [];
         cli.stderr := ["Error: Invalid or missing API key. Please set the OPENWEATHER_API_KEY environment variable or use the --api-key option."];
         cli.files := [] |}.
Proof.
  intros w settings location country units output pretty api_key [-> | ->];
    reflexivity.
Qed.

(** [test_cli_missing_api_key], against a session that would answer. *)
Lemma missing_api_key_witness :
  cli.get (fixtures.answering fixtures.london) fixtures.settings "London" None
    "metric" None true None
  = {| cli.exit_code := 1; cli.stdout := [];
       cli.stderr := ["Error: Invalid or missing API key. Please set the OPENWEATHER_API_KEY environment variable or use the --api-key option."];
       cli.files := [] |}.
Proof.
  apply (missing_api_key_stops_the_command (fixtures.answering fixtures.london)
           fixtures.settings "London" None "metric" None true None).
  now left.
Defined.

(** A run ends in one of four ways: the document on standard output and
    status 0; the document in the file, a confirmation on the error stream
    and status 0; or status 1 with a single line on the error stream,
    "Error: ..." for an error of the application and "Unexpected error: ..."
    for any other, and nothing on standard output. *)
Theorem run_ends_in_one_of_four_ways :
  forall (w : World) (settings : config.Settings)
         (location : string) (country : option string) (units : string)
         (output : option string) (pretty : bool) (api_key : option string),
    (exists document,
       (output = None \/ output = Some "") /\
       cli.get w settings location country units output pretty api_key
       = {| cli.exit_code := 0; cli.stdout := [document]; cli.stderr := [];
            cli.files := [] |}) \/
    (exists c path document,
       output = Some (String c path) /\
       write_text w (String c path) document = Ok tt /\
       cli.get w settings location country units output pretty api_key
       = {| cli.exit_code := 0; cli.stdout := [];
            cli.stderr := ["Weather data saved to " ++ String c path];
            cli.files := [(String c path, document)] |}) \/
    (exists text,
       cli.get w settings location country units output pretty api_key
       = {| cli.exit_code := 1; cli.stdout := []; cli.stderr := ["Error: " ++ text];
            cli.files := [] |}) \/
    (exists text,
       cli.get w settings location country units output pretty api_key
       = {| cli.exit_code := 1; cli.stdout := [];
            cli.stderr := ["Unexpected error: " ++ text]; cli.files := [] |}).
Proof.
  intros w settings location country units output pretty api_key.
  unfold cli.get.
  match goal with
  | |- context [match ?attempt with Ok _ => _ | Raise _ => _ end] =>
      destruct attempt as [outcome | e] eqn:Hattempt
  end.
  - bind_inversion Hattempt.
    destruct output as [[| c path] |].
    + left. inversion Hattempt. eexists. split; [now right | reflexivity].
    + right. left. apply bind_Ok in Hattempt.
      destruct Hattempt as ([] & Hwrite & Hattempt). inversion Hattempt.
      do 3 eexists. split; [reflexivity |]. split; [exact Hwrite | reflexivity].
    + left. inversion Hattempt. eexists. split; [now left | reflexivity].
  - destruct (isinstance e WeatherAppError).
    + right. right. left. eexists. reflexivity.
    + right. right. right. eexists. reflexivity.
Qed.

(** What is saved in the file is the document the same run would have
    printed without [--output]. *)
Theorem saved_file_is_the_printed_document :
  forall (w : World) (settings : config.Settings)
         (location : string) (country : option string) (units : string)
         (pretty : bool) (api_key : option string) (c : ascii) (path : string),
    cli.exit_code
      (cli.get w settings location country units (Some (String c path)) pretty api_key)
    = 0%Z ->
    exists document,
      cli.get w settings location country units (Some (String c path)) pretty api_key
      = {| cli.exit_code := 0; cli.stdout := [];
           cli.stderr := ["Weather data saved to " ++ String c path];
           cli.files := [(String c path, document)] |} /\
      cli.get w settings location country units None pretty api_key
      = {| cli.exit_code := 0; cli.stdout := [document]; cli.stderr := [];
           cli.files := [] |}.
Proof.
  intros w settings location country units pretty api_key c path.
  unfold cli.get.
  destruct api_key as [[| k key] |]; cbn [bind];
    try (intros H; exfalso; revert H; cbn; discriminate).
  destruct (cli.locate location country) as [target | e]; cbn [bind];
    [| intros H; exfalso; revert H;
       destruct (isinstance e WeatherAppError); discriminate].
  destruct (weather.get_weather_by_city w settings _ (fst target) (snd target) units "en")
    as [weather_data | e]; cbn [bind];
    [| intros H; exfalso; revert H;
       destruct (isinstance e WeatherAppError); discriminate].
  destruct (cli.format_weather_data w weather_data units) as [formatted_data | e];
    cbn [bind];
    [| intros H; exfalso; revert H;
       destruct (isinstance e WeatherAppError); discriminate].
  destruct (json_dumps w formatted_data (if pretty then Some 2%Z else None))
    as [document | e]; cbn [bind];
    [| intros H; exfalso; revert H;
       destruct (isinstance e WeatherAppError); discriminate].
  destruct (write_text w (String c path) document) as [[] | e]; cbn [bind];
    [| intros H; exfalso; revert H;
       destruct (isinstance e WeatherAppError); discriminate].
  intros _. exists document. split; reflexivity.
Qed.

(** [test_cli_get_weather_save_to_file], with London. *)
Lemma saved_file_witness :
  exists document,
    cli.get (fixtures.answering fixtures.london) fixtures.settings "London" None
      "metric" (Some "weather.json") true (Some "test_key")
    = {| cli.exit_code := 0; cli.stdout := [];
         cli.stderr := ["Weather data saved to weather.json"];
         cli.files := [("weather.json", document)] |} /\
    cli.get (fixtures.answering fixtures.london) fixtures.settings "London" None
      "metric" None true (Some "test_key")
    = {| cli.exit_code := 0; cli.stdout := [document]; cli.stderr := [];
         cli.files := [] |}.
Proof.
  apply (saved_file_is_the_printed_document (fixtures.answering fixtures.london)
           fixtures.settings "London" None "metric" true (Some "test_key")
           "w"%char "eather.json").
  vm_compute. reflexivity.
Defined.




(** ** The location, further *)

(** A string with the separator splits into at least two segments. *)
Lemma split_two sep s :
  Str.contains sep s = true ->
  exists first second others, Str.split sep s = first :: second :: others.
Proof.
  induction s as [| c s IH]; simpl; [discriminate |].
  destruct (Ascii.eqb c sep) eqn:Hc; cbn [orb].
  - intros _. destruct (Str.split sep s) as [| second others] eqn:Hs.
    + now destruct (split_nonempty sep s).
    + eauto.
  - intros H. destruct (IH H) as (first & second & others & ->). eauto.
Qed.

(** The decomposition of the location never fails: the [IndexError] of
    [location_parts[1]] cannot happen. Without a comma the location is the
    city as it is, not stripped, and the option [--country] stands; with a
    comma the option is always replaced. *)
Theorem locate_never_raises :
  forall (location : string) (country : option string),
    exists city country_code,
      cli.locate location country = Ok (city, country_code) /\
      (Str.contains "," location = false ->
       city = location /\ country_code = country) /\
      (Str.contains "," location = true ->
       exists first second others,
         Str.split "," location = first :: second :: others /\
         city = Str.strip first /\ country_code = Some (Str.strip second)).
Proof.
  intros location country. unfold cli.locate.
  destruct (Str.contains "," location) eqn:Hcomma.
  - destruct (split_two "," location Hcomma) as (first & second & others & Hsplit).
    rewrite Hsplit. cbn [map List.length cli.item nth_error bind].
    replace (1 <? Z.of_nat (S (S (List.length (map Str.strip others)))))%Z with true
      by (symmetry; apply Z.ltb_lt; lia).
    cbn [bind]. do 2 eexists. split; [reflexivity |].
    split; [discriminate |]. intros _. exists first, second, others. auto.
  - do 2 eexists. split; [reflexivity |]. split; [auto | discriminate].
Qed.

(** The city and the country of a location in two segments, with more
    behind them or not. *)
Lemma locate_segments a b more country :
  Str.contains "," a = false ->
  Str.contains "," b = false ->
  cli.locate
    (a ++ "," ++ b ++ match more with Some r => "," ++ r | None => "" end)
    country
  = Ok (Str.strip a, Some (Str.strip b)).
Proof.
  intros Ha Hb. unfold cli.locate.
  change (a ++ "," ++ b ++ match more with Some r => "," ++ r | None => "" end)
    with (a ++ String "," (b ++ match more with
                                | Some r => String "," r
                                | None => ""
                                end)).
  rewrite contains_separator, (split_first "," a _ Ha).
  destruct more as [r |].
  - rewrite (split_first "," b r Hb).
    cbn [map List.length cli.item nth_error bind].
    replace (1 <? Z.of_nat (S (S (List.length (map Str.strip (Str.split "," r))))))%Z
      with true by (symmetry; apply Z.ltb_lt; lia).
    reflexivity.
  - rewrite append_empty, (split_whole "," b Hb). reflexivity.
Qed.

(** A second segment that is empty or blank, as in "London," or
    "London, ", replaces the option [--country] by the empty string, which
    the client takes for no country: the request asks for the city alone,
    and the country given by option is lost. *)
Theorem blank_country_segment_drops_the_option :
  forall (self : weather.WeatherClient) (a b : string) (more : option string)
         (country : option string) (units lang : string),
    Str.contains "," a = false ->
    Str.contains "," b = false ->
    Str.strip b = "" ->
    cli.locate
      (a ++ "," ++ b ++ match more with Some r => "," ++ r | None => "" end)
      country
    = Ok (Str.strip a, Some "") /\
    lookup "q" (weather.request_params self (Str.strip a) (Some "") units lang)
    = Some (VStr (Str.strip a)).
Proof.
  intros self a b more country units lang Ha Hb Hblank.
  split; [| reflexivity].
  rewrite (locate_segments a b more country Ha Hb). now rewrite Hblank.
Qed.

(** "London," with the option [--country gb]: the provider is asked for
    "London". *)
Lemma blank_country_segment_witness :
  (cli.locate "London, " (Some "gb") = Ok ("London", Some "") /\
   lookup "q" (weather.request_params fixtures.client "London" (Some "") "metric" "en")
   = Some (VStr "London")) /\
  cli.stderr (cli.get fixtures.unreachable fixtures.settings "London," (Some "gb")
                "metric" None true (Some "test_key"))
  = ["Error: API Error 500: no route to host for q=London"].
Proof.
  split.
  - apply (blank_country_segment_drops_the_option fixtures.client "London" " " None
             (Some "gb") "metric" "en"); reflexivity.
  - reflexivity.
Defined.

(** ** The formatted report *)

(** Everything the formatter has read when it returns, and the document it
    has built from it. *)
Lemma format_weather_data_document w weather_data units out :
  cli.format_weather_data w weather_data units = Ok out ->
  exists city sys country coord lat lon conditions condition main description icon
         measures temp feels_like temp_min temp_max pressure humidity
         text wind speed degree gust clouds rain snow sunrise sunset timezone,
    getattr weather_data "name" = Ok city /\
    getattr weather_data "sys" = Ok sys /\
    getattr sys "country" = Ok country /\
    getattr weather_data "coord" = Ok coord /\
    cli.getitem coord "lat" = Ok lat /\
    cli.getitem coord "lon" = Ok lon /\
    getattr weather_data "weather" = Ok conditions /\
    cli.first conditions = Ok condition /\
    getattr condition "main" = Ok main /\
    getattr condition "description" = Ok description /\
    getattr condition "icon" = Ok icon /\
    getattr weather_data "main" = Ok measures /\
    getattr measures "temp" = Ok temp /\
    getattr measures "feels_like" = Ok feels_like /\
    getattr measures "temp_min" = Ok temp_min /\
    getattr measures "temp_max" = Ok temp_max /\
    getattr measures "pressure" = Ok pressure /\
    getattr measures "humidity" = Ok humidity /\
    getattr weather_data "wind" = Ok wind /\
    getattr wind "speed" = Ok speed /\
    (if hasattr wind "deg" then getattr wind "deg" else Ok VNone) = Ok degree /\
    (if hasattr wind "gust" then getattr wind "gust" else Ok VNone) = Ok gust /\
    (if hasattr weather_data "clouds"
     then (cover <- getattr weather_data "clouds" ;;
           all <- getattr cover "all" ;; Ok (VStr (str_of w all ++ "%")))%py
     else Ok (VStr "N/A")) = Ok clouds /\
    (if hasattr weather_data "timezone"
     then getattr weather_data "timezone" else Ok VNone) = Ok timezone /\
    out = VDict
      [("location", VDict
         [("city", city);
          ("country", country);
          ("coordinates", VDict [("lat", lat); ("lon", lon)])]);
       ("weather", VDict
         [("main", main);
          ("description", description);
          ("icon", icon);
          ("temperature", VDict
             [("current", temp);
              ("feels_like", feels_like);
              ("min", temp_min);
              ("max", temp_max);
              ("unit", VStr (if String.eqb units "metric" then "°C" else "°F"))]);
          ("pressure", VStr (str_of w pressure ++ " hPa"));
          ("humidity", VStr (str_of w humidity ++ "%"));
          ("visibility", VStr text);
          ("wind", VDict
             [("speed", VStr (str_of w speed ++ " "
                              ++ (if String.eqb units "metric" then "m/s" else "mph")));
              ("degree", degree);
              ("gust", gust)]);
          ("clouds", clouds);
          ("rain", rain);
          ("snow", snow);
          ("sun", VDict [("sunrise", VStr sunrise); ("sunset", VStr sunset)]);
          ("timezone", timezone);
          ("timestamp", VStr (now_isoformat w))])].
Proof.
  unfold cli.format_weather_data. intros H.
  bind_inversion H.
  inversion H; subst out; clear H.
  assert (Hiso : forall t v, cli.isoformat w t = Ok v -> exists s, v = VStr s).
  { intros t v. unfold cli.isoformat. destruct t; try discriminate.
    destruct (fromtimestamp_isoformat w n); cbn [bind]; [| discriminate].
    intros H. inversion H. eauto. }
  repeat match goal with
         | H : cli.isoformat w _ = Ok _ |- _ =>
             apply Hiso in H; destruct H as (? & ->)
         end.
  do 29 eexists.
  repeat (split; [eassumption |]).
  reflexivity.
Qed.

(** The document always has the same nesting and the same fields in the
    same order, and its rendered fields (unit, pressure, humidity,
    visibility, wind speed, sunrise, sunset, timestamp) are strings. *)
Theorem formatted_document_has_a_fixed_schema :
  forall (w : World) (weather_data : value) (units : string) (out : value),
    cli.format_weather_data w weather_data units = Ok out ->
    exists city country lat lon main description icon
           temp feels_like temp_min temp_max unit pressure humidity visibility
           speed degree gust clouds rain snow sunrise sunset timezone timestamp,
      out = VDict
        [("location", VDict
           [("city", city);
            ("country", country);
            ("coordinates", VDict [("lat", lat); ("lon", lon)])]);
         ("weather", VDict
           [("main", main);
            ("description", description);
            ("icon", icon);
            ("temperature", VDict
               [("current", temp);
                ("feels_like", feels_like);
                ("min", temp_min);
                ("max", temp_max);
                ("unit", VStr unit)]);
            ("pressure", VStr pressure);
            ("humidity", VStr humidity);
            ("visibility", VStr visibility);
            ("wind", VDict
               [("speed", VStr speed);
                ("degree", degree);
                ("gust", gust)]);
            ("clouds", clouds);
            ("rain", rain);
            ("snow", snow);
            ("sun", VDict [("sunrise", VStr sunrise); ("sunset", VStr sunset)]);
            ("timezone", timezone);
            ("timestamp", VStr timestamp)])].
Proof.
  intros w weather_data units out Hout.
  apply format_weather_data_document in Hout.
  destruct Hout as (city & sys & country & coord & lat & lon & conditions & condition & main
                    & description & icon & measures & temp & feels_like & temp_min
                    & temp_max & pressure & humidity & text & wind & speed & degree
                    & gust & clouds & rain & snow & sunrise & sunset & timezone & H).
  do 24 (destruct H as [_ H]).
  subst out. do 25 eexists. reflexivity.
Qed.

(** The document of London. *)
Lemma formatted_document_witness :
  exists city country lat lon main description icon
         temp feels_like temp_min temp_max unit pressure humidity visibility
         speed degree gust clouds rain snow sunrise sunset timezone timestamp,
    fixtures.formatted fixtures.london "metric" = VDict
      [("location", VDict
         [("city", city);
          ("country", country);
          ("coordinates", VDict [("lat", lat); ("lon", lon)])]);
       ("weather", VDict
         [("main", main);
          ("description", description);
          ("icon", icon);
          ("temperature", VDict
             [("current", temp);
              ("feels_like", feels_like);
              ("min", temp_min);
              ("max", temp_max);
              ("unit", VStr unit)]);
          ("pressure", VStr pressure);
          ("humidity", VStr humidity);
          ("visibility", VStr visibility);
          ("wind", VDict
             [("speed", VStr speed);
              ("degree", degree);
              ("gust", gust)]);
          ("clouds", clouds);
          ("rain", rain);
          ("snow", snow);
          ("sun", VDict [("sunrise", VStr sunrise); ("sunset", VStr sunset)]);
          ("timezone", timezone);
          ("timestamp", VStr timestamp)])].
Proof.
  apply (formatted_document_has_a_fixed_schema (fixtures.answering fixtures.london)
           (fixtures.report_of fixtures.london) "metric"
           (fixtures.formatted fixtures.london "metric")).
  vm_compute. reflexivity.
Defined.

Lemma validate_str w x v :
  pydantic.validate w pydantic.TStr x = inl v ->
  exists s, lax_str w x = Some s /\ v = VStr s.
Proof.
  simpl. destruct (lax_str w x) as [s |]; [| discriminate].
  intros H. inversion H. eauto.
Qed.

Lemma validate_float w x v :
  pydantic.validate w pydantic.TFloat x = inl v ->
  exists t, lax_float w x = Some t /\ v = VFloat t.
Proof.
  simpl. destruct (lax_float w x) as [t |]; [| discriminate].
  intros H. inversion H. eauto.
Qed.

(** The nested model a validated response stores for a JSON object of the
    payload, and the integer it stores for one of its required fields. *)
Lemma nested_integer w kvs obj outer cls fs inner_kvs inner :
  pydantic.construct w weather.WeatherResponse kvs = Ok obj ->
  pydantic.field_of outer weather.WeatherResponse_fields
  = Some (pydantic.TModel cls fs, false) ->
  lookup outer kvs = Some (VDict inner_kvs) ->
  pydantic.field_of inner fs = Some (pydantic.TInt, false) ->
  exists model x n,
    getattr obj outer = Ok model /\
    lookup inner inner_kvs = Some x /\ lax_int w x = Some n /\
    getattr model inner = Ok (VInt n).
Proof.
  intros Hobj Houter Hkvs Hinner.
  destruct (validated_attribute w kvs obj outer _ Hobj Houter)
    as (x0 & model & Hx0 & Hmodel & Hattr).
  rewrite Hkvs in Hx0. inversion Hx0; subst x0; clear Hx0.
  destruct (model_attribute w cls fs inner_kvs model inner pydantic.TInt Hmodel Hinner)
    as (x & a & Hx & Ha & Hget).
  apply validate_int in Ha. destruct Ha as (n & Hn & ->).
  exists model, x, n. auto.
Qed.

(** For a validated response built from the provider's JSON objects, the
    integers of the payload reach the document as they are: pressure and
    humidity with their units, the cloud cover as a percentage, the
    direction of the wind and the time zone as numbers. The formatter's
    fallbacks for these fields ("N/A", null) are never taken. *)
Theorem validated_integers_are_rendered :
  forall (w : World) (kvs main_kvs wind_kvs clouds_kvs : list (string * value))
         (obj : value) (units : string) (out : value),
    pydantic.construct w weather.WeatherResponse kvs = Ok obj ->
    cli.format_weather_data w obj units = Ok out ->
    lookup "main" kvs = Some (VDict main_kvs) ->
    lookup "wind" kvs = Some (VDict wind_kvs) ->
    lookup "clouds" kvs = Some (VDict clouds_kvs) ->
    exists xp p xh h xd d xa a xt t,
      lookup "pressure" main_kvs = Some xp /\ lax_int w xp = Some p /\
      lookup "humidity" main_kvs = Some xh /\ lax_int w xh = Some h /\
      lookup "deg" wind_kvs = Some xd /\ lax_int w xd = Some d /\
      lookup "all" clouds_kvs = Some xa /\ lax_int w xa = Some a /\
      lookup "timezone" kvs = Some xt /\ lax_int w xt = Some t /\
      at_path ["weather"; "pressure"] out = Some (VStr (Str.of_Z p ++ " hPa")) /\
      at_path ["weather"; "humidity"] out = Some (VStr (Str.of_Z h ++ "%")) /\
      at_path ["weather"; "wind"; "degree"] out = Some (VInt d) /\
      at_path ["weather"; "clouds"] out = Some (VStr (Str.of_Z a ++ "%")) /\
      at_path ["weather"; "timezone"] out = Some (VInt t).
Proof.
  intros w kvs main_kvs wind_kvs clouds_kvs obj units out Hobj Hout Hmain Hwind Hclouds.
  destruct (nested_integer w kvs obj "main" _ _ main_kvs "pressure" Hobj eq_refl Hmain eq_refl)
    as (measures & xp & p & Hgm & Hxp & Hp & Hgp).
  destruct (nested_integer w kvs obj "main" _ _ main_kvs "humidity" Hobj eq_refl Hmain eq_refl)
    as (measures' & xh & h & Hgm' & Hxh & Hh & Hgh).
  rewrite Hgm in Hgm'. inversion Hgm'; subst measures'; clear Hgm'.
  destruct (nested_integer w kvs obj "wind" _ _ wind_kvs "deg" Hobj eq_refl Hwind eq_refl)
    as (wind & xd & d & Hgw & Hxd & Hd & Hgd).
  destruct (nested_integer w kvs obj "clouds" _ _ clouds_kvs "all" Hobj eq_refl Hclouds eq_refl)
    as (cover & xa & a & Hgc & Hxa & Ha & Hga).
  destruct (validated_attribute w kvs obj "timezone" pydantic.TInt Hobj eq_refl)
    as (xt & tz & Hxt & Hvt & Hgt).
  apply validate_int in Hvt. destruct Hvt as (t & Ht & ->).
  apply format_weather_data_document in Hout.
  destruct Hout as (city & sys & country & coord & lat & lon & conditions & condition
                    & main & description & icon & measures0 & temp & feels_like
                    & temp_min & temp_max & pressure & humidity & text & wind0 & speed
                    & degree & gust & clouds & rain & snow & sunrise & sunset
                    & timezone & H).
  do 11 (destruct H as [_ H]).
  destruct H as (Hm0 & _ & _ & _ & _ & Hp0 & Hh0 & Hw0 & _ & Hd0 & _ & Hc0 & Ht0 & ->).
  rewrite Hgm in Hm0. inversion Hm0; subst measures0; clear Hm0.
  rewrite Hgp in Hp0. inversion Hp0; subst pressure; clear Hp0.
  rewrite Hgh in Hh0. inversion Hh0; subst humidity; clear Hh0.
  rewrite Hgw in Hw0. inversion Hw0; subst wind0; clear Hw0.
  rewrite (hasattr_of_getattr _ _ _ Hgd), Hgd in Hd0.
  inversion Hd0; subst degree; clear Hd0.
  rewrite (hasattr_of_getattr _ _ _ Hgc), Hgc in Hc0. cbn [bind] in Hc0.
  rewrite Hga in Hc0. cbn [bind] in Hc0. inversion Hc0; subst clouds; clear Hc0.
  rewrite (hasattr_of_getattr _ _ _ Hgt), Hgt in Ht0.
  inversion Ht0; subst timezone; clear Ht0.
  exists xp, p, xh, h, xd, d, xa, a, xt, t.
  repeat (split; [assumption |]). repeat split.
Qed.

(** London: 1012 hPa, 72 %, wind from 200 degrees, no clouds, one hour
    east of Greenwich. *)
Lemma validated_integers_witness :
  exists xp p xh h xd d xa a xt t,
    lookup "pressure"
      [("temp", fixtures.decimal 155 10); ("feels_like", fixtures.decimal 148 10);
       ("temp_min", fixtures.decimal 140 10); ("temp_max", fixtures.decimal 160 10);
       ("pressure", VInt 1012); ("humidity", VInt 72)] = Some xp /\
    lax_int (fixtures.answering fixtures.london) xp = Some p /\
    lookup "humidity"
      [("temp", fixtures.decimal 155 10); ("feels_like", fixtures.decimal 148 10);
       ("temp_min", fixtures.decimal 140 10); ("temp_max", fixtures.decimal 160 10);
       ("pressure", VInt 1012); ("humidity", VInt 72)] = Some xh /\
    lax_int (fixtures.answering fixtures.london) xh = Some h /\
    lookup "deg" fixtures.london_wind = Some xd /\
    lax_int (fixtures.answering fixtures.london) xd = Some d /\
    lookup "all" [("all", VInt 0)] = Some xa /\
    lax_int (fixtures.answering fixtures.london) xa = Some a /\
    lookup "timezone" fixtures.london = Some xt /\
    lax_int (fixtures.answering fixtures.london) xt = Some t /\
    at_path ["weather"; "pressure"] (fixtures.formatted fixtures.london "metric")
    = Some (VStr (Str.of_Z p ++ " hPa")) /\
    at_path ["weather"; "humidity"] (fixtures.formatted fixtures.london "metric")
    = Some (VStr (Str.of_Z h ++ "%")) /\
    at_path ["weather"; "wind"; "degree"] (fixtures.formatted fixtures.london "metric")
    = Some (VInt d) /\
    at_path ["weather"; "clouds"] (fixtures.formatted fixtures.london "metric")
    = Some (VStr (Str.of_Z a ++ "%")) /\
    at_path ["weather"; "timezone"] (fixtures.formatted fixtures.london "metric")
    = Some (VInt t).
Proof.
  apply (validated_integers_are_rendered (fixtures.answering fixtures.london)
           fixtures.london _ fixtures.london_wind [("all", VInt 0)]
           (fixtures.report_of fixtures.london) "metric"
           (fixtures.formatted fixtures.london "metric"));
    vm_compute; reflexivity.
Defined.

(** The nested model of a JSON object, and what it stores for one of its
    required fields. *)
Lemma nested_field w kvs obj outer cls fs inner_kvs inner ft :
  pydantic.construct w weather.WeatherResponse kvs = Ok obj ->
  pydantic.field_of outer weather.WeatherResponse_fields
  = Some (pydantic.TModel cls fs, false) ->
  lookup outer kvs = Some (VDict inner_kvs) ->
  pydantic.field_of inner fs = Some (ft, false) ->
  exists model x v,
    getattr obj outer = Ok model /\
    lookup inner inner_kvs = Some x /\ pydantic.validate w ft x = inl v /\
    getattr model inner = Ok v.
Proof.
  intros Hobj Houter Hkvs Hinner.
  destruct (validated_attribute w kvs obj outer _ Hobj Houter)
    as (x0 & model & Hx0 & Hmodel & Hattr).
  rewrite Hkvs in Hx0. inversion Hx0; subst x0; clear Hx0.
  destruct (model_attribute w cls fs inner_kvs model inner ft Hmodel Hinner)
    as (x & v & Hx & Hv & Hget).
  exists model, x, v. auto.
Qed.

(** The names and the temperatures of the payload reach the document
    unchanged but for validation: the city is the payload's name, the
    country the one of its [sys] object, and the four temperatures are the
    floats of its [main] object, whatever the units. *)
Theorem names_and_temperatures_pass_through :
  forall (w : World) (kvs main_kvs sys_kvs : list (string * value))
         (obj : value) (units : string) (out : value),
    pydantic.construct w weather.WeatherResponse kvs = Ok obj ->
    cli.format_weather_data w obj units = Ok out ->
    lookup "main" kvs = Some (VDict main_kvs) ->
    lookup "sys" kvs = Some (VDict sys_kvs) ->
    exists xn name xc country x1 temp x2 feels_like x3 temp_min x4 temp_max,
      lookup "name" kvs = Some xn /\ lax_str w xn = Some name /\
      lookup "country" sys_kvs = Some xc /\ lax_str w xc = Some country /\
      lookup "temp" main_kvs = Some x1 /\ lax_float w x1 = Some temp /\
      lookup "feels_like" main_kvs = Some x2 /\ lax_float w x2 = Some feels_like /\
      lookup "temp_min" main_kvs = Some x3 /\ lax_float w x3 = Some temp_min /\
      lookup "temp_max" main_kvs = Some x4 /\ lax_float w x4 = Some temp_max /\
      at_path ["location"; "city"] out = Some (VStr name) /\
      at_path ["location"; "country"] out = Some (VStr country) /\
      at_path ["weather"; "temperature"; "current"] out = Some (VFloat temp) /\
      at_path ["weather"; "temperature"; "feels_like"] out = Some (VFloat feels_like) /\
      at_path ["weather"; "temperature"; "min"] out = Some (VFloat temp_min) /\
      at_path ["weather"; "temperature"; "max"] out = Some (VFloat temp_max).
Proof.
  intros w kvs main_kvs sys_kvs obj units out Hobj Hout Hmain Hsys.
  destruct (validated_attribute w kvs obj "name" pydantic.TStr Hobj eq_refl)
    as (xn & vn & Hxn & Hvn & Hgn).
  apply validate_str in Hvn. destruct Hvn as (name & Hname & ->).
  destruct (nested_field w kvs obj "sys" _ _ sys_kvs "country" pydantic.TStr
              Hobj eq_refl Hsys eq_refl) as (sys & xc & vc & Hgs & Hxc & Hvc & Hgc).
  apply validate_str in Hvc. destruct Hvc as (country & Hcountry & ->).
  destruct (nested_field w kvs obj "main" _ _ main_kvs "temp" pydantic.TFloat
              Hobj eq_refl Hmain eq_refl) as (measures & x1 & v1 & Hgm & Hx1 & Hv1 & Hg1).
  apply validate_float in Hv1. destruct Hv1 as (temp & Htemp & ->).
  destruct (nested_field w kvs obj "main" _ _ main_kvs "feels_like" pydantic.TFloat
              Hobj eq_refl Hmain eq_refl) as (m2 & x2 & v2 & Hgm2 & Hx2 & Hv2 & Hg2).
  rewrite Hgm in Hgm2. inversion Hgm2; subst m2; clear Hgm2.
  apply validate_float in Hv2. destruct Hv2 as (feels_like & Hfeels & ->).
  destruct (nested_field w kvs obj "main" _ _ main_kvs "temp_min" pydantic.TFloat
              Hobj eq_refl Hmain eq_refl) as (m3 & x3 & v3 & Hgm3 & Hx3 & Hv3 & Hg3).
  rewrite Hgm in Hgm3. inversion Hgm3; subst m3; clear Hgm3.
  apply validate_float in Hv3. destruct Hv3 as (temp_min & Hmin & ->).
  destruct (nested_field w kvs obj "main" _ _ main_kvs "temp_max" pydantic.TFloat
              Hobj eq_refl Hmain eq_refl) as (m4 & x4 & v4 & Hgm4 & Hx4 & Hv4 & Hg4).
  rewrite Hgm in Hgm4. inversion Hgm4; subst m4; clear Hgm4.
  apply validate_float in Hv4. destruct Hv4 as (temp_max & Hmax & ->).
  apply format_weather_data_document in Hout.
  destruct Hout as (city0 & sys0 & country0 & coord & lat & lon & conditions & condition
                    & main & description & icon & measures0 & temp0 & feels0
                    & min0 & max0 & pressure & humidity & text & wind0 & speed
                    & degree & gust & clouds & rain & snow & sunrise & sunset
                    & timezone & H).
  destruct H as (Hn0 & Hs0 & Hc0 & H). do 8 (destruct H as [_ H]).
  destruct H as (Hm0 & H1 & H2 & H3 & H4 & H). do 8 (destruct H as [_ H]). subst out.
  rewrite Hgn in Hn0. inversion Hn0; subst city0; clear Hn0.
  rewrite Hgs in Hs0. inversion Hs0; subst sys0; clear Hs0.
  rewrite Hgc in Hc0. inversion Hc0; subst country0; clear Hc0.
  rewrite Hgm in Hm0. inversion Hm0; subst measures0; clear Hm0.
  rewrite Hg1 in H1. inversion H1; subst temp0; clear H1.
  rewrite Hg2 in H2. inversion H2; subst feels0; clear H2.
  rewrite Hg3 in H3. inversion H3; subst min0; clear H3.
  rewrite Hg4 in H4. inversion H4; subst max0; clear H4.
  exists xn, name, xc, country, x1, temp, x2, feels_like, x3, temp_min, x4, temp_max.
  repeat (split; [assumption |]). repeat split.
Qed.

(** London, GB, at 15.5 degrees. *)
Lemma names_and_temperatures_witness :
  exists xn name xc country x1 temp x2 feels_like x3 temp_min x4 temp_max,
    lookup "name" fixtures.london = Some xn /\
    lax_str (fixtures.answering fixtures.london) xn = Some name /\
    lookup "country"
      [("type", VInt 2); ("id", VInt 2019646); ("country", VStr "GB");
       ("sunrise", VInt 1619950000); ("sunset", VInt 1620000000)] = Some xc /\
    lax_str (fixtures.answering fixtures.london) xc = Some country /\
    lookup "temp"
      [("temp", fixtures.decimal 155 10); ("feels_like", fixtures.decimal 148 10);
       ("temp_min", fixtures.decimal 140 10); ("temp_max", fixtures.decimal 160 10);
       ("pressure", VInt 1012); ("humidity", VInt 72)] = Some x1 /\
    lax_float (fixtures.answering fixtures.london) x1 = Some temp /\
    lookup "feels_like"
      [("temp", fixtures.decimal 155 10); ("feels_like", fixtures.decimal 148 10);
       ("temp_min", fixtures.decimal 140 10); ("temp_max", fixtures.decimal 160 10);
       ("pressure", VInt 1012); ("humidity", VInt 72)] = Some x2 /\
    lax_float (fixtures.answering fixtures.london) x2 = Some feels_like /\
    lookup "temp_min"
      [("temp", fixtures.decimal 155 10); ("feels_like", fixtures.decimal 148 10);
       ("temp_min", fixtures.decimal 140 10); ("temp_max", fixtures.decimal 160 10);
       ("pressure", VInt 1012); ("humidity", VInt 72)] = Some x3 /\
    lax_float (fixtures.answering fixtures.london) x3 = Some temp_min /\
    lookup "temp_max"
      [("temp", fixtures.decimal 155 10); ("feels_like", fixtures.decimal 148 10);
       ("temp_min", fixtures.decimal 140 10); ("temp_max", fixtures.decimal 160 10);
       ("pressure", VInt 1012); ("humidity", VInt 72)] = Some x4 /\
    lax_float (fixtures.answering fixtures.london) x4 = Some temp_max /\
    at_path ["location"; "city"] (fixtures.formatted fixtures.london "imperial")
    = Some (VStr name) /\
    at_path ["location"; "country"] (fixtures.formatted fixtures.london "imperial")
    = Some (VStr country) /\
    at_path ["weather"; "temperature"; "current"]
      (fixtures.formatted fixtures.london "imperial") = Some (VFloat temp) /\
    at_path ["weather"; "temperature"; "feels_like"]
      (fixtures.formatted fixtures.london "imperial") = Some (VFloat feels_like) /\
    at_path ["weather"; "temperature"; "min"]
      (fixtures.formatted fixtures.london "imperial") = Some (VFloat temp_min) /\
    at_path ["weather"; "temperature"; "max"]
      (fixtures.formatted fixtures.london "imperial") = Some (VFloat temp_max).
Proof.
  apply (names_and_temperatures_pass_through (fixtures.answering fixtures.london)
           fixtures.london _ _ (fixtures.report_of fixtures.london) "imperial"
           (fixtures.formatted fixtures.london "imperial"));
    vm_compute; reflexivity.
Defined.

(** ** What validation reads *)




(** ** The primary condition *)

(** The primary condition of a validated response is the validated first
    item of the payload's list of conditions, and [None] when the list is
    empty. The formatter reads the first item without that guard: it
    returns the summary of the primary condition when there is one, and
    never returns for a response without conditions, although such a
    response validates. *)
Theorem condition_is_the_first_or_none :
  forall (w : World) (kvs : list (string * value)) (obj : value) (xs : list value),
    pydantic.construct w weather.WeatherResponse kvs = Ok obj ->
    lookup "weather" kvs = Some (VList xs) ->
    (xs = [] ->
     response.condition obj = Ok VNone /\
     forall units out, cli.format_weather_data w obj units <> Ok out) /\
    (forall x rest,
       xs = x :: rest ->
       exists c,
         pydantic.validate w weather.WeatherCondition x = inl c /\
         response.condition obj = Ok c /\
         forall units out,
           cli.format_weather_data w obj units = Ok out ->
           exists summary,
             getattr c "main" = Ok summary /\
             at_path ["weather"; "main"] out = Some summary).
Proof.
  intros w kvs obj xs Hobj Hweather.
  destruct (validated_attribute w kvs obj "weather" (pydantic.TList weather.WeatherCondition)
              Hobj eq_refl) as (x0 & ws & Hx0 & Hws & Hget).
  rewrite Hweather in Hx0. inversion Hx0; subst x0; clear Hx0.
  split.
  - intros ->. cbn in Hws. inversion Hws; subst ws; clear Hws. split.
    + unfold response.condition. rewrite Hget. reflexivity.
    + intros units out Hout. apply format_weather_data_document in Hout.
      destruct Hout as (city & sys & country & coord & lat & lon & conditions & condition
                        & H).
      destruct H as (main & description & icon & measures & temp & feels_like
                     & temp_min & temp_max & pressure & humidity & text & wind & speed
                     & degree & gust & clouds & rain & snow & sunrise & sunset
                     & timezone & H).
      do 6 (destruct H as [_ H]). destruct H as (Hconditions & Hfirst & _).
      rewrite Hget in Hconditions. inversion Hconditions; subst conditions.
      discriminate Hfirst.
  - intros x rest ->. apply validate_list_cons in Hws.
    destruct Hws as (c & vs & -> & Hc).
    exists c. split; [exact Hc |]. split.
    + unfold response.condition. rewrite Hget. reflexivity.
    + intros units out Hout. apply format_weather_data_document in Hout.
      destruct Hout as (city & sys & country & coord & lat & lon & conditions & condition
                        & H).
      destruct H as (main & description & icon & measures & temp & feels_like
                     & temp_min & temp_max & pressure & humidity & text & wind & speed
                     & degree & gust & clouds & rain & snow & sunrise & sunset
                     & timezone & H).
      do 6 (destruct H as [_ H]). destruct H as (Hconditions & Hfirst & Hmain & H).
      do 15 (destruct H as [_ H]). subst out.
      rewrite Hget in Hconditions. inversion Hconditions; subst conditions.
      cbn in Hfirst. inversion Hfirst; subst condition.
      exists main. split; [exact Hmain | reflexivity].
Qed.

(** London under a clear sky. *)
Lemma condition_witness :
  ([VDict [("id", VInt 800); ("main", VStr "Clear");
           ("description", VStr "clear sky"); ("icon", VStr "01d")]] = [] ->
   response.condition (fixtures.report_of fixtures.london) = Ok VNone /\
   forall units out,
     cli.format_weather_data (fixtures.answering fixtures.london)
       (fixtures.report_of fixtures.london) units <> Ok out) /\
  (forall x rest,
     [VDict [("id", VInt 800); ("main", VStr "Clear");
             ("description", VStr "clear sky"); ("icon", VStr "01d")]] = x :: rest ->
     exists c,
       pydantic.validate (fixtures.answering fixtures.london) weather.WeatherCondition x
       = inl c /\
       response.condition (fixtures.report_of fixtures.london) = Ok c /\
       forall units out,
         cli.format_weather_data (fixtures.answering fixtures.london)
           (fixtures.report_of fixtures.london) units = Ok out ->
         exists summary,
           getattr c "main" = Ok summary /\
           at_path ["weather"; "main"] out = Some summary).
Proof.
  apply (condition_is_the_first_or_none (fixtures.answering fixtures.london)
           fixtures.london (fixtures.report_of fixtures.london)
           [VDict [("id", VInt 800); ("main", VStr "Clear");
                   ("description", VStr "clear sky"); ("icon", VStr "01d")]]);
    reflexivity.
Defined.

(** ** The script *)

(** The script turns every error of the application into a [ValueError]
    whose text is "Failed to fetch weather data: " and the text of the
    error, so the class of the error is lost; any other exception of the
    client passes unchanged. Either way [main] exits with status 1 and one
    line "Error: ..." on the error stream. *)
Theorem script_wraps_application_errors :
  forall (w : World) (settings : config.Settings) (getenv : string -> option string)
         (location : string) (country : option string) (units : string)
         (output : option string) (pretty : bool) (c : ascii) (key : string)
         (city : string) (country_code : option string) (e : exn),
    cli.locate location country = Ok (city, country_code) ->
    weather.get_weather_by_city w settings
      (weather.WeatherClient_init settings (Some (String c key)) None)
      city country_code units "en" = Raise e ->
    script.get_weather w settings getenv location country units (Some (String c key))
    = Raise (if isinstance e WeatherAppError
             then plain ValueError ("Failed to fetch weather data: " ++ exn_str e)
             else e) /\
    script.main w settings getenv
      {| script.location := location; script.country := country;
         script.units := units; script.output := output; script.pretty := pretty;
         script.api_key := Some (String c key) |}
    = {| cli.exit_code := 1; cli.stdout := [];
         cli.stderr := ["Error: "
                        ++ (if isinstance e WeatherAppError
                            then "Failed to fetch weather data: " ++ exn_str e
                            else exn_str e)];
         cli.files := [] |}.
Proof.
  intros w settings getenv location country units output pretty c key city
         country_code e Hlocate Hcall.
  assert (Hget :
    script.get_weather w settings getenv location country units (Some (String c key))
    = Raise (if isinstance e WeatherAppError
             then plain ValueError ("Failed to fetch weather data: " ++ exn_str e)
             else e)).
  { unfold script.get_weather. cbn [bind]. rewrite Hlocate. cbn [bind fst snd].
    rewrite Hcall. cbn [bind]. unfold try_except.
    destruct (isinstance e WeatherAppError); reflexivity. }
  split; [exact Hget |].
  unfold script.main. cbn [script.location script.country script.units script.api_key].
  rewrite Hget. cbn [bind].
  destruct (isinstance e WeatherAppError); reflexivity.
Qed.

(** The place that does not exist, asked of the script, and the rejected
    key, whose [TypeError] is not wrapped. *)
Lemma script_wraps_witness :
  (script.get_weather
     (fixtures.answering [("cod", VStr "404"); ("message", VStr "city not found")])
     fixtures.settings (fun _ => None) "Atlantis" None "metric" (Some "test_key")
   = Raise (plain ValueError
              "Failed to fetch weather data: Location not found: city not found") /\
   script.main
     (fixtures.answering [("cod", VStr "404"); ("message", VStr "city not found")])
     fixtures.settings (fun _ => None)
     {| script.location := "Atlantis"; script.country := None;
        script.units := "metric"; script.output := None; script.pretty := false;
        script.api_key := Some "test_key" |}
   = {| cli.exit_code := 1; cli.stdout := [];
        cli.stderr := ["Error: Failed to fetch weather data: Location not found: city not found"];
        cli.files := [] |}) /\
  cli.stderr
    (script.main
       (fixtures.answering [("cod", VInt 401); ("message", VStr "Invalid API key")])
       fixtures.settings (fun _ => None)
       {| script.location := "London"; script.country := None;
          script.units := "metric"; script.output := None; script.pretty := false;
          script.api_key := Some "bad_key" |})
  = ["Error: InvalidAPIKeyError.__init__() takes 2 positional arguments but 3 were given"].
Proof.
  split.
  - apply (script_wraps_application_errors
             (fixtures.answering [("cod", VStr "404"); ("message", VStr "city not found")])
             fixtures.settings (fun _ => None) "Atlantis" None "metric" None false
             "t"%char "est_key" "Atlantis" None
             (plain LocationNotFoundError "Location not found: city not found"));
      reflexivity.
  - reflexivity.
Defined.

(** Without a key in its arguments the script takes the one of the
    environment variable and then behaves as if it had been given; without
    either it raises [ValueError] before anything else, and [main] exits
    with status 1 and the request to set the variable. *)
Theorem script_key_falls_back_to_environment :
  forall (w : World) (settings : config.Settings) (getenv : string -> option string)
         (location : string) (country : option string) (units : string)
         (output : option string) (pretty : bool) (api_key : option string),
    api_key = None \/ api_key = Some "" ->
    (forall k key,
       getenv "OPENWEATHER_API_KEY" = Some (String k key) ->
       script.get_weather w settings getenv location country units api_key
       = script.get_weather w settings getenv location country units
           (Some (String k key))) /\
    (getenv "OPENWEATHER_API_KEY" = None \/ getenv "OPENWEATHER_API_KEY" = Some "" ->
     script.get_weather w settings getenv location country units api_key
     = Raise (plain ValueError script.key_required) /\
     script.main w settings getenv
       {| script.location := location; script.country := country;
          script.units := units; script.output := output; script.pretty := pretty;
          script.api_key := api_key |}
     = {| cli.exit_code := 1; cli.stdout := [];
          cli.stderr := ["Error: API key is required. Set OPENWEATHER_API_KEY environment variable or pass it with --api-key"];
          cli.files := [] |}).
Proof.
  intros w settings getenv location country units output pretty api_key Hnone.
  split.
  - intros k key Henv. unfold script.get_weather.
    destruct Hnone as [-> | ->]; now rewrite Henv.
  - intros Henv.
    assert (Hget :
      script.get_weather w settings getenv location country units api_key
      = Raise (plain ValueError script.key_required)).
    { unfold script.get_weather.
      destruct Hnone as [-> | ->]; destruct Henv as [-> | ->]; reflexivity. }
    split; [exact Hget |].
    unfold script.main. cbn [script.location script.country script.units script.api_key].
    now rewrite Hget.
Qed.

(** The key of the environment, used for London. *)
Lemma script_key_witness :
  (forall k key,
     Some "env_key" = Some (String k key) ->
     script.get_weather (fixtures.answering fixtures.london) fixtures.settings
       (fun _ => Some "env_key") "London" None "metric" None
     = script.get_weather (fixtures.answering fixtures.london) fixtures.settings
         (fun _ => Some "env_key") "London" None "metric" (Some (String k key))) /\
  (Some "env_key" = None \/ Some "env_key" = Some "" ->
   script.get_weather (fixtures.answering fixtures.london) fixtures.settings
     (fun _ => Some "env_key") "London" None "metric" None
   = Raise (plain ValueError script.key_required) /\
   script.main (fixtures.answering fixtures.london) fixtures.settings
     (fun _ => Some "env_key")
     {| script.location := "London"; script.country := None;
        script.units := "metric"; script.output := None; script.pretty := false;
        script.api_key := None |}
   = {| cli.exit_code := 1; cli.stdout := [];
        cli.stderr := ["Error: API key is required. Set OPENWEATHER_API_KEY environment variable or pass it with --api-key"];
        cli.files := [] |}).
Proof.
  apply (script_key_falls_back_to_environment (fixtures.answering fixtures.london)
           fixtures.settings (fun _ => Some "env_key") "London" None "metric"
           None false None).
  now left.
Defined.

(** ** The two formatters *)

Lemma lookup_dump k (kvs : list (string * value)) :
  lookup k (map (fun kv => let '(k0, x) := kv in (k0, response.model_dump x)) kvs)
  = option_map response.model_dump (lookup k kvs).
Proof.
  induction kvs as [| [k0 x] kvs IH]; [reflexivity |].
  cbn [map lookup]. destruct (String.eqb k k0); [reflexivity | exact IH].
Qed.

(** Reading the dump of a model with [get] gives the dump of what the
    attribute holds. *)
Lemma get_of_getattr o k v d :
  getattr o k = Ok v ->
  weather.get (response.model_dump o) k d = Ok (response.model_dump v).
Proof.
  destruct o as [| b | n | x | s | xs | kvs | cls attrs]; try discriminate.
  cbn [getattr response.model_dump weather.get].
  unfold weather.dict_get. rewrite lookup_dump.
  destruct (lookup k attrs); [| discriminate].
  intros H. now inversion H.
Qed.

Lemma get_of_getitem o k v d :
  cli.getitem o k = Ok v ->
  weather.get (response.model_dump o) k d = Ok (response.model_dump v).
Proof.
  destruct o as [| b | n | x | s | xs | kvs | cls attrs]; try discriminate.
  cbn [cli.getitem response.model_dump weather.get].
  unfold weather.dict_get. rewrite lookup_dump.
  destruct (lookup k kvs); [| discriminate].
  intros H. now inversion H.
Qed.

(** [get] never fails on the dump of a model. *)
Lemma get_of_model o k k' v d :
  getattr o k = Ok v ->
  exists v', weather.get (response.model_dump o) k' d = Ok v'.
Proof.
  destruct o as [| b | n | x | s | xs | kvs | cls attrs]; try discriminate.
  intros _. cbn [response.model_dump weather.get]. eauto.
Qed.

Lemma get_of_missing o k k' v d :
  getattr o k = Ok v -> hasattr o k' = false ->
  weather.get (response.model_dump o) k' d = Ok d.
Proof.
  destruct o as [| b | n | x | s | xs | kvs | cls attrs]; try discriminate.
  intros _. unfold hasattr, getattr.
  cbn [response.model_dump weather.get]. unfold weather.dict_get.
  rewrite lookup_dump. destruct (lookup k' attrs); [discriminate | reflexivity].
Qed.

(** On a validated response built from the provider's JSON objects, the
    formatter of the script, which works on the dump of the model, returns
    whenever the formatter of the command line does, and the two documents
    agree on the unit labels, the wind speed and direction, the
    visibility, the pressure, the humidity, the cloud cover and the time
    zone; both have lost the precipitation. They differ on the timestamp:
    the script gives the time of the observation, the [dt] of the payload. *)
Theorem script_and_command_line_agree :
  forall (w : World) (kvs main_kvs wind_kvs clouds_kvs : list (string * value))
         (obj : value) (units : string) (out : value),
    pydantic.construct w weather.WeatherResponse kvs = Ok obj ->
    cli.format_weather_data w obj units = Ok out ->
    lookup "main" kvs = Some (VDict main_kvs) ->
    lookup "wind" kvs = Some (VDict wind_kvs) ->
    lookup "clouds" kvs = Some (VDict clouds_kvs) ->
    exists out' x dt,
      script.format_weather_data w (response.model_dump obj) units = Ok out' /\
      (forall path,
         In path [["weather"; "temperature"; "unit"];
                  ["weather"; "wind"; "speed"];
                  ["weather"; "wind"; "degree"];
                  ["weather"; "visibility"];
                  ["weather"; "pressure"];
                  ["weather"; "humidity"];
                  ["weather"; "clouds"];
                  ["weather"; "timezone"];
                  ["weather"; "rain"];
                  ["weather"; "snow"]] ->
         at_path path out' = at_path path out) /\
      lookup "dt" kvs = Some x /\ lax_int w x = Some dt /\
      at_path ["weather"; "timestamp"] out' = Some (VInt dt) /\
      at_path ["weather"; "timestamp"] out = Some (VStr (now_isoformat w)).
Proof.
  intros w kvs main_kvs wind_kvs clouds_kvs obj units out Hobj Hout Hmain Hwind Hclouds.
  (* the integers and the speed, as validation stores them *)
  destruct (nested_integer w kvs obj "main" _ _ main_kvs "pressure" Hobj eq_refl Hmain eq_refl)
    as (measures & xp & p & Hgm & _ & _ & Hgp).
  destruct (nested_integer w kvs obj "main" _ _ main_kvs "humidity" Hobj eq_refl Hmain eq_refl)
    as (measures' & xh & h & Hgm' & _ & _ & Hgh).
  rewrite Hgm in Hgm'. inversion Hgm'; subst measures'; clear Hgm'.
  destruct (nested_integer w kvs obj "wind" _ _ wind_kvs "deg" Hobj eq_refl Hwind eq_refl)
    as (wind & xd & d & Hgw & _ & _ & Hgd).
  destruct (nested_field w kvs obj "wind" _ _ wind_kvs "speed" pydantic.TFloat
              Hobj eq_refl Hwind eq_refl) as (wind' & xs & vs & Hgw' & _ & Hvs & Hgs).
  rewrite Hgw in Hgw'. inversion Hgw'; subst wind'; clear Hgw'.
  apply validate_float in Hvs. destruct Hvs as (speed & _ & ->).
  destruct (nested_integer w kvs obj "clouds" _ _ clouds_kvs "all" Hobj eq_refl Hclouds eq_refl)
    as (cover & xa & a & Hgc & _ & _ & Hga).
  destruct (validated_attribute w kvs obj "timezone" pydantic.TInt Hobj eq_refl)
    as (xt & tz & _ & Hvt & Hgt).
  apply validate_int in Hvt. destruct Hvt as (t & _ & ->).
  destruct (validated_attribute w kvs obj "visibility" pydantic.TInt Hobj eq_refl)
    as (xv & vis & _ & Hvv & Hgv).
  apply validate_int in Hvv. destruct Hvv as (n & _ & ->).
  destruct (validated_attribute w kvs obj "dt" pydantic.TInt Hobj eq_refl)
    as (x & vdt & Hx & Hvdt & Hgdt).
  apply validate_int in Hvdt. destruct Hvdt as (dt & Hdt & ->).
  (* no precipitation among the attributes *)
  destruct (validated_response w kvs obj Hobj) as (attrs & Hshape & _ & Hnames).
  assert (Hrain : hasattr obj "rain" = false).
  { subst obj. unfold hasattr, getattr. rewrite lookup_absent; [reflexivity |].
    rewrite Hnames. simpl. intuition discriminate. }
  assert (Hsnow : hasattr obj "snow" = false).
  { subst obj. unfold hasattr, getattr. rewrite lookup_absent; [reflexivity |].
    rewrite Hnames. simpl. intuition discriminate. }
  clear attrs Hshape Hnames.
  (* what the command line read *)
  pose proof (format_weather_data_Ok w obj units out Hout)
    as (visibility0 & wind0 & speed0 & rain0 & snow0 & text & Hv0 & Htext & _ & _
        & Hr0 & Hs0 & _ & _ & Hftext & Hfrain & Hfsnow).
  rewrite Hgv in Hv0. inversion Hv0; subst visibility0; clear Hv0.
  rewrite Hrain in Hr0. inversion Hr0; subst rain0; clear Hr0.
  rewrite Hsnow in Hs0. inversion Hs0; subst snow0; clear Hs0.
  apply format_weather_data_document in Hout.
  destruct Hout as (city & sys & country & coord & lat & lon & conditions & condition
                    & H).
  destruct H as (summary & description & icon & measures0 & temp & feels_like
                 & temp_min & temp_max & pressure & humidity & text0 & wind1 & speed1
                 & degree & gust & clouds & rain & snow & sunrise & sunset
                 & timezone & H).
  destruct H as (Hcity & Hsys & Hcountry & Hcoord & Hlat & Hlon & Hconditions & Hfirst
                 & Hsummary & Hdescription & Hicon & Hm0 & Htemp & Hfeels & Hmin & Hmax
                 & Hp0 & Hh0 & Hw0 & Hs1 & Hd0 & Hgust & Hc0 & Ht0 & Hdoc).
  rewrite Hgm in Hm0. inversion Hm0; subst measures0; clear Hm0.
  rewrite Hgp in Hp0. inversion Hp0; subst pressure; clear Hp0.
  rewrite Hgh in Hh0. inversion Hh0; subst humidity; clear Hh0.
  rewrite Hgw in Hw0. inversion Hw0; subst wind1; clear Hw0.
  rewrite Hgs in Hs1. inversion Hs1; subst speed1; clear Hs1.
  rewrite (hasattr_of_getattr _ _ _ Hgd), Hgd in Hd0.
  inversion Hd0; subst degree; clear Hd0.
  rewrite (hasattr_of_getattr _ _ _ Hgc), Hgc in Hc0. cbn [bind] in Hc0.
  rewrite Hga in Hc0. cbn [bind] in Hc0. inversion Hc0; subst clouds; clear Hc0.
  rewrite (hasattr_of_getattr _ _ _ Hgt), Hgt in Ht0.
  inversion Ht0; subst timezone; clear Ht0.
  subst out. cbn in Hftext, Hfrain, Hfsnow.
  inversion Hftext; subst text0. inversion Hfrain; subst rain.
  inversion Hfsnow; subst snow. clear Hftext Hfrain Hfsnow.
  (* the first condition *)
  assert (Hlist : exists others, conditions = VList (condition :: others)).
  { destruct conditions as [| | | | | [| c others] | |]; try discriminate.
    cbn in Hfirst. inversion Hfirst. eauto. }
  destruct Hlist as (others & ->).
  (* the script, step by step *)
  destruct (get_of_model wind "speed" "gust" _ VNone Hgs) as (gust' & Hgust').
  destruct (get_of_model sys "country" "sunrise" _ VNone Hcountry) as (rise & Hrise).
  destruct (get_of_model sys "country" "sunset" _ VNone Hcountry) as (set & Hset).
  unfold script.format_weather_data.
  rewrite (get_of_getattr obj "coord" coord _ Hcoord); cbn [bind].
  rewrite (get_of_getattr obj "main" measures _ Hgm); cbn [bind].
  rewrite (get_of_getattr obj "weather" _ _ Hconditions); cbn [bind].
  cbn [response.model_dump map script.index0 bind].
  rewrite (get_of_getattr obj "wind" wind _ Hgw); cbn [bind].
  rewrite (get_of_getattr obj "sys" sys _ Hsys); cbn [bind].
  rewrite (get_of_getattr obj "name" city _ Hcity); cbn [bind].
  rewrite (get_of_getattr sys "country" country _ Hcountry); cbn [bind].
  rewrite (get_of_getitem coord "lat" lat _ Hlat); cbn [bind].
  rewrite (get_of_getitem coord "lon" lon _ Hlon); cbn [bind].
  rewrite (get_of_getattr condition "main" summary _ Hsummary); cbn [bind].
  rewrite (get_of_getattr condition "description" description _ Hdescription); cbn [bind].
  rewrite (get_of_getattr condition "icon" icon _ Hicon); cbn [bind].
  rewrite (get_of_getattr measures "temp" temp _ Htemp); cbn [bind].
  rewrite (get_of_getattr measures "feels_like" feels_like _ Hfeels); cbn [bind].
  rewrite (get_of_getattr measures "temp_min" temp_min _ Hmin); cbn [bind].
  rewrite (get_of_getattr measures "temp_max" temp_max _ Hmax); cbn [bind].
  rewrite (get_of_getattr measures "pressure" _ _ Hgp); cbn [bind].
  rewrite (get_of_getattr measures "humidity" _ _ Hgh); cbn [bind].
  rewrite !(get_of_getattr obj "visibility" _ _ Hgv); cbn [bind response.model_dump].
  rewrite Htext; cbn [bind].
  rewrite (get_of_getattr wind "speed" _ _ Hgs); cbn [bind].
  rewrite (get_of_getattr wind "deg" _ _ Hgd); cbn [bind].
  rewrite Hgust'; cbn [bind].
  rewrite (get_of_getattr obj "clouds" cover _ Hgc); cbn [bind].
  rewrite (get_of_getattr cover "all" _ _ Hga); cbn [bind].
  rewrite (get_of_missing obj "name" "rain" city VNone Hcity Hrain); cbn [bind].
  rewrite (get_of_missing obj "name" "snow" city VNone Hcity Hsnow); cbn [bind].
  rewrite Hrise, Hset; cbn [bind].
  rewrite (get_of_getattr obj "timezone" _ _ Hgt); cbn [bind].
  rewrite (get_of_getattr obj "dt" _ _ Hgdt); cbn [bind].
  eexists. exists x, dt. split; [reflexivity |].
  split; [| repeat split; assumption].
  intros path Hpath. cbn [In] in Hpath.
  repeat (destruct Hpath as [<- | Hpath]; [reflexivity |]).
  destruct Hpath.
Qed.

(** London through the script. *)
Lemma script_and_command_line_witness :
  exists out' x dt,
    script.format_weather_data (fixtures.answering fixtures.london)
      (response.model_dump (fixtures.report_of fixtures.london)) "metric" = Ok out' /\
    (forall path,
       In path [["weather"; "temperature"; "unit"];
                ["weather"; "wind"; "speed"];
                ["weather"; "wind"; "degree"];
                ["weather"; "visibility"];
                ["weather"; "pressure"];
                ["weather"; "humidity"];
                ["weather"; "clouds"];
                ["weather"; "timezone"];
                ["weather"; "rain"];
                ["weather"; "snow"]] ->
       at_path path out' = at_path path (fixtures.formatted fixtures.london "metric")) /\
    lookup "dt" fixtures.london = Some x /\
    lax_int (fixtures.answering fixtures.london) x = Some dt /\
    at_path ["weather"; "timestamp"] out' = Some (VInt dt) /\
    at_path ["weather"; "timestamp"] (fixtures.formatted fixtures.london "metric")
    = Some (VStr (now_isoformat (fixtures.answering fixtures.london))).
Proof.
  apply (script_and_command_line_agree (fixtures.answering fixtures.london)
           fixtures.london
           [("temp", fixtures.decimal 155 10); ("feels_like", fixtures.decimal 148 10);
            ("temp_min", fixtures.decimal 140 10); ("temp_max", fixtures.decimal 160 10);
            ("pressure", VInt 1012); ("humidity", VInt 72)]
           fixtures.london_wind [("all", VInt 0)]
           (fixtures.report_of fixtures.london) "metric"
           (fixtures.formatted fixtures.london "metric"));
    vm_compute; reflexivity.
Defined.

(** ** What a returned report guarantees *)

(** The client returns only a validated response: when it returns, the
    session has answered, the response is not an HTTP error, its body is a
    JSON object whose status equals 200, and the value returned is the
    model built from it, with the thirteen declared attributes in their
    order. *)
Theorem returned_report_is_validated :
  forall (w : World) (settings : config.Settings) (self : weather.WeatherClient)
         (city : string) (country_code : option string) (units lang : string)
         (obj : value),
    weather.get_weather_by_city w settings self city country_code units lang = Ok obj ->
    exists response kvs attrs,
      session_get w (weather.base_url self)
        (weather.request_params self city country_code units lang)
        (config.REQUEST_TIMEOUT settings) = Ok response /\
      ((400 <=? requests.status_code response)%Z
       && (requests.status_code response <? 600)%Z = false) /\
      requests.body response = inl (VDict kvs) /\
      eq_int (weather.dict_get kvs "cod" VNone) 200 = true /\
      pydantic.construct w weather.WeatherResponse kvs = Ok obj /\
      obj = VObj "WeatherResponse" attrs /\
      map fst attrs
      = ["coord"; "weather"; "base"; "main"; "visibility"; "wind"; "clouds";
         "dt"; "sys"; "timezone"; "id"; "name"; "cod"].
Proof.
  intros w settings self city country_code units lang obj Hcall.
  unfold weather.get_weather_by_city in Hcall.
  assert (Hraised : forall (r : result value) e0,
            r = Raise e0 ->
            try_except r RequestException
              (fun e1 => exceptions.raise_new w APIError
                 [match exn_response e1 with
                  | Some r0 => VInt (requests.status_code r0)
                  | None => VInt 500
                  end; VStr (exn_str e1)]) = Ok obj -> False).
  { intros r e0 ->. unfold try_except.
    destruct (isinstance e0 RequestException); discriminate. }
  destruct (session_get w (weather.base_url self)
              (weather.request_params self city country_code units lang)
              (config.REQUEST_TIMEOUT settings)) as [response | e0] eqn:Hsession;
    [| exfalso; now apply (Hraised _ e0 eq_refl)].
  cbn [bind] in Hcall.
  destruct (weather.raise_for_status response) as [[] | e0] eqn:Hstatus;
    [| exfalso; now apply (Hraised _ e0 eq_refl)].
  cbn [bind] in Hcall. unfold weather.json in Hcall.
  destruct (requests.body response) as [data | msg] eqn:Hbody;
    [| exfalso; now apply (Hraised _ (plain JSONDecodeError msg) eq_refl)].
  cbn [bind] in Hcall.
  destruct data as [| b | n | x | s | xs | kvs | cls attrs0];
    try (cbn in Hcall; discriminate Hcall).
  cbn [weather.get bind] in Hcall.
  destruct (eq_int (weather.dict_get kvs "cod" VNone) 200) eqn:Hcod;
    cbn [negb bind] in Hcall.
  2:{ exfalso.
      destruct (handle_api_error_raises w (weather.dict_get kvs "cod" (VInt 500))
                  (weather.dict_get kvs "message" (VStr "Unknown error")))
        as (e1 & He1 & _).
      rewrite He1 in Hcall. now apply (Hraised _ e1 eq_refl). }
  destruct (pydantic.construct w weather.WeatherResponse kvs) as [obj' | e1] eqn:Hobj;
    [| exfalso; now apply (Hraised _ e1 eq_refl)].
  cbn in Hcall. inversion Hcall; subst obj'.
  destruct (validated_response w kvs obj Hobj) as (attrs & Hshape & _ & Hnames).
  exists response, kvs, attrs. repeat split; try assumption.
  revert Hstatus. unfold weather.raise_for_status.
  destruct ((400 <=? requests.status_code response)%Z) eqn:Hlow;
    destruct ((requests.status_code response <? 500)%Z) eqn:Hmid;
    destruct ((500 <=? requests.status_code response)%Z) eqn:Hhigh;
    destruct ((requests.status_code response <? 600)%Z) eqn:Htop;
    cbn; try discriminate; try reflexivity; intros _; exfalso; lia.
Qed.

(** London, returned. *)
Lemma returned_report_witness :
  exists response kvs attrs,
    session_get (fixtures.answering fixtures.london)
      (weather.base_url fixtures.client)
      (weather.request_params fixtures.client "London" None "metric" "en")
      (config.REQUEST_TIMEOUT fixtures.settings) = Ok response /\
    ((400 <=? requests.status_code response)%Z
     && (requests.status_code response <? 600)%Z = false) /\
    requests.body response = inl (VDict kvs) /\
    eq_int (weather.dict_get kvs "cod" VNone) 200 = true /\
    pydantic.construct (fixtures.answering fixtures.london) weather.WeatherResponse kvs
    = Ok (fixtures.report_of fixtures.london) /\
    fixtures.report_of fixtures.london = VObj "WeatherResponse" attrs /\
    map fst attrs
    = ["coord"; "weather"; "base"; "main"; "visibility"; "wind"; "clouds";
       "dt"; "sys"; "timezone"; "id"; "name"; "cod"].
Proof.
  apply (returned_report_is_validated (fixtures.answering fixtures.london)
           fixtures.settings fixtures.client "London" None "metric" "en"
           (fixtures.report_of fixtures.london)).
  vm_compute. reflexivity.
Defined.

(** ** HTTP errors at the command line *)

(** The call on a response with an HTTP error status. *)
Lemma http_error_call w settings self city country_code units lang response :
  session_get w (weather.base_url self)
    (weather.request_params self city country_code units lang)
    (config.REQUEST_TIMEOUT settings) = Ok response ->
  (400 <= requests.status_code response < 600)%Z ->
  exists e,
    weather.get_weather_by_city w settings self city country_code units lang = Raise e /\
    exn_class e = APIError /\
    exn_status_code e = Some (VInt (requests.status_code response)) /\
    exn_str e
    = "API Error " ++ Str.of_Z (requests.status_code response) ++ ": "
      ++ Str.of_Z (requests.status_code response)
      ++ (if (requests.status_code response <? 500)%Z
          then " Client Error: " else " Server Error: ")
      ++ requests.reason response ++ " for url: " ++ requests.url response.
Proof.
  intros Hsession Hrange. unfold weather.get_weather_by_city.
  rewrite Hsession. cbn [bind]. unfold weather.raise_for_status.
  destruct (Z.ltb_spec (requests.status_code response) 500) as [Hlt | Hge].
  - replace ((400 <=? requests.status_code response)%Z) with true
      by (symmetry; apply Z.leb_le; lia).
    cbn [andb bind]. eexists. split; [reflexivity |]. repeat split.
  - replace ((400 <=? requests.status_code response)%Z) with true
      by (symmetry; apply Z.leb_le; lia).
    replace ((500 <=? requests.status_code response)%Z) with true
      by (symmetry; apply Z.leb_le; lia).
    replace ((requests.status_code response <? 600)%Z) with true
      by (symmetry; apply Z.ltb_lt; lia).
    cbn [andb bind]. eexists. split; [reflexivity |]. repeat split.
Qed.

(** When the provider answers with an HTTP error status, as it does for an
    unknown city (404) or a rejected key (401), the payload is not read:
    the command line prints "Error: API Error <status>: <status> Client
    Error: <reason> for url: <url>" ("Server Error" from 500 on) and exits
    with status 1. It prints neither "Location not found" nor the message
    about the credential. *)
Theorem http_error_is_reported_as_api_error :
  forall (w : World) (settings : config.Settings)
         (location : string) (country : option string) (units : string)
         (output : option string) (pretty : bool) (c : ascii) (key : string)
         (city : string) (country_code : option string)
         (response : requests.Response),
    cli.locate location country = Ok (city, country_code) ->
    session_get w
      (weather.base_url (weather.WeatherClient_init settings (Some (String c key)) None))
      (weather.request_params
         (weather.WeatherClient_init settings (Some (String c key)) None)
         city country_code units "en")
      (config.REQUEST_TIMEOUT settings) = Ok response ->
    (400 <= requests.status_code response < 600)%Z ->
    cli.get w settings location country units output pretty (Some (String c key))
    = {| cli.exit_code := 1; cli.stdout := [];
         cli.stderr :=
           ["Error: API Error " ++ Str.of_Z (requests.status_code response) ++ ": "
            ++ Str.of_Z (requests.status_code response)
            ++ (if (requests.status_code response <? 500)%Z
                then " Client Error: " else " Server Error: ")
            ++ requests.reason response ++ " for url: " ++ requests.url response];
         cli.files := [] |}.
Proof.
  intros w settings location country units output pretty c key city country_code
         response Hlocate Hsession Hrange.
  destruct (http_error_call w settings _ city country_code units "en" response
              Hsession Hrange) as (e & Hcall & Hclass & _ & Htext).
  rewrite (get_reports_client_error w settings location country units output pretty
             c key city country_code e Hlocate Hcall).
  unfold isinstance. rewrite Hclass. cbn. now rewrite Htext.
Qed.

(** The provider's real answer for a city it does not know: HTTP 404 with
    the payload of the not-found test. *)
Lemma http_error_witness :
  cli.get
    (fixtures.mock (fun _ =>
       Ok {| requests.status_code := 404; requests.reason := "Not Found";
             requests.url := "https://api.openweathermap.org/data/2.5/weather?q=Atlantis";
             requests.body :=
               inl (VDict [("cod", VStr "404"); ("message", VStr "city not found")]) |}))
    fixtures.settings "Atlantis" None "metric" None true (Some "test_key")
  = {| cli.exit_code := 1; cli.stdout := [];
       cli.stderr :=
         ["Error: API Error 404: 404 Client Error: Not Found for url: https://api.openweathermap.org/data/2.5/weather?q=Atlantis"];
       cli.files := [] |}.
Proof.
  apply (http_error_is_reported_as_api_error
           (fixtures.mock (fun _ =>
              Ok {| requests.status_code := 404; requests.reason := "Not Found";
                    requests.url := "https://api.openweathermap.org/data/2.5/weather?q=Atlantis";
                    requests.body :=
                      inl (VDict [("cod", VStr "404"); ("message", VStr "city not found")]) |}))
           fixtures.settings "Atlantis" None "metric" None true
           "t"%char "est_key" "Atlantis" None
           {| requests.status_code := 404; requests.reason := "Not Found";
              requests.url := "https://api.openweathermap.org/data/2.5/weather?q=Atlantis";
              requests.body :=
                inl (VDict [("cod", VStr "404"); ("message", VStr "city not found")]) |});
    try reflexivity.
  cbn. lia.
Defined.

(** ** The rendered visibility *)

Lemma append_associative (a b c : string) : (a ++ b) ++ c = a ++ b ++ c.
Proof.
  induction a as [| ch a IH]; [reflexivity |].
  cbn [String.append]. now rewrite IH.
Qed.

Lemma renderings_up_to_ten_km :
  forallb rendering_ok (map Z.of_nat (seq 1 (Z.to_nat 10000))) = true.
Proof. vm_compute. reflexivity. Qed.

(** Over the range the provider reports, from one metre to ten kilometres,
    the visibility of a validated response is rendered as kilometres with
    one decimal, at most fifty metres away from the value. *)
Theorem visibility_is_rendered_within_fifty_metres :
  forall (w : World) (kvs : list (string * value)) (obj : value)
         (units : string) (out : value) (n : Z),
    pydantic.construct w weather.WeatherResponse kvs = Ok obj ->
    cli.format_weather_data w obj units = Ok out ->
    getattr obj "visibility" = Ok (VInt n) ->
    (1 <= n <= 10000)%Z ->
    exists tenths,
      at_path ["weather"; "visibility"] out
      = Some (VStr (Str.of_Z (tenths / 10) ++ "." ++ Str.of_Z (tenths mod 10) ++ " km")) /\
      (Z.abs (100 * tenths - n) <= 50)%Z.
Proof.
  intros w kvs obj units out n _ Hout Hvis Hrange.
  assert (Hok : rendering_ok n = true).
  { pose proof renderings_up_to_ten_km as Hall.
    rewrite forallb_forall in Hall. apply Hall.
    apply in_map_iff. exists (Z.to_nat n). split; [lia |].
    apply in_seq. lia. }
  unfold rendering_ok in Hok. apply existsb_exists in Hok.
  destruct Hok as (tenths & _ & Hok). apply andb_true_iff in Hok.
  destruct Hok as [Htext Hnear].
  apply String.eqb_eq in Htext. apply Z.leb_le in Hnear.
  exists tenths. split; [| exact Hnear].
  apply format_weather_data_Ok in Hout.
  destruct Hout as (visibility & wind & speed & rain & snow & text
                    & Hv & Ht & _ & _ & _ & _ & _ & _ & Hfield & _).
  rewrite Hvis in Hv. inversion Hv; subst visibility; clear Hv.
  rewrite Hfield. do 2 f_equal.
  cbn [truthy] in Ht.
  replace (n =? 0)%Z with false in Ht by (symmetry; apply Z.eqb_neq; lia).
  cbn [negb] in Ht. apply bind_Ok in Ht. destruct Ht as (km & Hkm & Ht).
  apply per_thousand_int in Hkm. subst km. inversion Ht.
  rewrite Htext. now rewrite append_associative.
Qed.

(** London at ten kilometres. *)
Lemma visibility_rendering_witness :
  exists tenths,
    at_path ["weather"; "visibility"] (fixtures.formatted fixtures.london "metric")
    = Some (VStr (Str.of_Z (tenths / 10) ++ "." ++ Str.of_Z (tenths mod 10) ++ " km")) /\
    (Z.abs (100 * tenths - 10000) <= 50)%Z.
Proof.
  apply (visibility_is_rendered_within_fifty_metres (fixtures.answering fixtures.london)
           fixtures.london (fixtures.report_of fixtures.london) "metric"
           (fixtures.formatted fixtures.london "metric") 10000);
    try (vm_compute; reflexivity).
  lia.
Defined.

(** ** The one request of a run *)


